(** * kite: wallet, airdrop and key-persistence helpers

    A shallow embedding of the helper functions of the repository
    (confirmTransaction, keypairToSecretKeyJSON, getKeypairFromFile,
    getKeypairFromEnvironment, addKeypairToEnvFile, makeKeypairs,
    createWalletFactory) together with the parts of the
    platform they talk to: the process environment, the file system, the
    key store of the runtime and the test network. *)

From Stdlib Require Import ZArith NArith Lia Ascii String List Bool.
From Stdlib Require Import Strings.Byte.
From stdpp Require Import base tactics option list gmap strings.

Open Scope string_scope.

#[global] Instance byte_eq_dec : EqDecision byte := Byte.byte_eq_dec.

(** ** Results of fallible calls

    A JavaScript function either returns a value or throws; [Ok] and [Err]
    keep the two apart, and [E] is the type of what is thrown. *)

Inductive result (E A : Type) : Type :=
| Ok (a : A)
| Err (e : E).
Arguments Ok {E A} a.
Arguments Err {E A} e.

(** ** Text helpers *)

Module Text.

Definition newline : ascii := "010"%char.

(** [s.split("\n")]: the lines of a text; a text without a newline is one
    line, and the empty text is one empty line. *)
Fixpoint lines (s : string) : list string :=
  match s with
  | EmptyString => [EmptyString]
  | String c s' =>
      if Ascii.eqb c newline then EmptyString :: lines s'
      else match lines s' with
           | l :: ls => String c l :: ls
           | [] => [String c EmptyString]
           end
  end.

(** [s.startsWith(p)] and [s.endsWith(p)]. *)
Definition startsWith (p s : string) : bool := String.prefix p s.

Fixpoint rev_string (s : string) : string :=
  match s with
  | EmptyString => EmptyString
  | String c s' => rev_string s' +:+ String c EmptyString
  end.

Definition endsWith (p s : string) : bool :=
  String.prefix (rev_string p) (rev_string s).

(** Splits a line at its first ["="]. *)
Fixpoint split_eq (s : string) : option (string * string) :=
  match s with
  | EmptyString => None
  | String c s' =>
      if Ascii.eqb c "="%char then Some (EmptyString, s')
      else match split_eq s' with
           | Some (k, v) => Some (String c k, v)
           | None => None
           end
  end.

(** Removes a prefix when it is there. *)
Fixpoint strip_prefix (p s : string) : option string :=
  match p, s with
  | EmptyString, _ => Some s
  | String a p', String b s' =>
      if Ascii.eqb a b then strip_prefix p' s' else None
  | String _ _, EmptyString => None
  end.

End Text.

(** ** Decimal text of a byte and the JSON text of a byte array *)

Module Json.

Definition digit_char (n : N) : ascii := ascii_of_N (48 + n).

(** [String(b)] for [0 <= b <= 255]: no sign, no leading zero. *)
Definition dec_of_N (n : N) : string :=
  if (n <? 10)%N then String (digit_char n) EmptyString
  else if (n <? 100)%N then
    String (digit_char (n / 10)) (String (digit_char (n mod 10)) EmptyString)
  else
    String (digit_char (n / 100))
      (String (digit_char ((n / 10) mod 10))
         (String (digit_char (n mod 10)) EmptyString)).

Definition dec_of_byte (b : byte) : string := dec_of_N (Byte.to_N b).

Fixpoint join_bytes (bs : list byte) : string :=
  match bs with
  | [] => EmptyString
  | b :: bs' =>
      match bs' with
      | [] => dec_of_byte b
      | _ :: _ => dec_of_byte b +:+ String ","%char (join_bytes bs')
      end
  end.

(** [JSON.stringify(Array.from(bytes))]. *)
Definition stringify_bytes (bs : list byte) : string :=
  String "["%char (join_bytes bs +:+ "]").

(** [JSON.parse] on the texts that denote an array of integers: optional
    white space between tokens, an optional minus sign, no leading zero.
    These are the texts [keypairToSecretKeyJSON] and the Solana CLI write.
    The runtime reads more than this: objects, strings, fractions, exponents
    and numeric strings give bytes too, and an integer beyond 2^53 is rounded
    before it is reduced. This reader answers [None] on the other shapes and
    reads every integer exactly, so it stands for the runtime only on arrays
    of integers below 2^53; the statements below use it on the texts
    [JSON.stringify] writes for byte arrays. What holds of the loader for
    every text is stated over [Reader], where the reader is an argument. *)
Inductive pstate :=
| PStart                          (* before the opening bracket *)
| POpen                           (* after the bracket: a value or the end *)
| PValue                          (* after a comma: a value *)
| PMinus                          (* after a minus sign: a digit *)
| PZero (neg : bool)              (* after a leading zero *)
| PDigits (neg : bool) (n : N)    (* inside an integer *)
| PAfter                          (* after a value: a comma or the end *)
| PDone.                          (* after the closing bracket *)

Definition is_space (c : ascii) : bool :=
  Ascii.eqb c " "%char || Ascii.eqb c "009"%char
  || Ascii.eqb c "010"%char || Ascii.eqb c "013"%char.

Definition digit_value (c : ascii) : option N :=
  let n := N_of_ascii c in
  if ((48 <=? n) && (n <=? 57))%N then Some (n - 48)%N else None.

Definition signed (neg : bool) (n : N) : Z :=
  if neg then (- Z.of_N n)%Z else Z.of_N n.

Definition start_value (c : ascii) (acc : list Z)
  : option (pstate * list Z) :=
  if Ascii.eqb c "-"%char then Some (PMinus, acc)
  else match digit_value c with
       | Some 0%N => Some (PZero false, acc)
       | Some d => Some (PDigits false d, acc)
       | None => None
       end.

Definition end_value (c : ascii) (v : Z) (acc : list Z)
  : option (pstate * list Z) :=
  if Ascii.eqb c ","%char then Some (PValue, v :: acc)
  else if Ascii.eqb c "]"%char then Some (PDone, v :: acc)
  else if is_space c then Some (PAfter, v :: acc)
  else None.

Definition step (st : pstate) (acc : list Z) (c : ascii)
  : option (pstate * list Z) :=
  match st with
  | PStart =>
      if is_space c then Some (PStart, acc)
      else if Ascii.eqb c "["%char then Some (POpen, acc) else None
  | POpen =>
      if is_space c then Some (POpen, acc)
      else if Ascii.eqb c "]"%char then Some (PDone, acc)
      else start_value c acc
  | PValue =>
      if is_space c then Some (PValue, acc) else start_value c acc
  | PMinus =>
      match digit_value c with
      | Some 0%N => Some (PZero true, acc)
      | Some d => Some (PDigits true d, acc)
      | None => None
      end
  | PZero neg => end_value c (signed neg 0) acc
  | PDigits neg n =>
      match digit_value c with
      | Some d => Some (PDigits neg (10 * n + d)%N, acc)
      | None => end_value c (signed neg n) acc
      end
  | PAfter =>
      if is_space c then Some (PAfter, acc)
      else if Ascii.eqb c ","%char then Some (PValue, acc)
      else if Ascii.eqb c "]"%char then Some (PDone, acc)
      else None
  | PDone => if is_space c then Some (PDone, acc) else None
  end.

Fixpoint run (st : pstate) (acc : list Z) (s : string) : option (list Z) :=
  match s with
  | EmptyString =>
      match st with PDone => Some (rev acc) | _ => None end
  | String c s' =>
      match step st acc c with
      | Some (st', acc') => run st' acc' s'
      | None => None
      end
  end.

Definition parse_int_array (s : string) : option (list Z) := run PStart [] s.

(** [Uint8Array.from(numbers)]: every number is reduced modulo 256. *)
Definition byte_of_Z (z : Z) : byte :=
  match Byte.of_N (Z.to_N (z mod 256)) with
  | Some b => b
  | None => x00
  end.

Definition Uint8Array_from (zs : list Z) : list byte := map byte_of_Z zs.

(** [Uint8Array.from(JSON.parse(s))] on the texts above, [None] on every
    other text. *)
Definition parse_bytes (s : string) : option (list byte) :=
  Uint8Array_from <$> parse_int_array s.

End Json.


(** ** Base58 (the bs58 package) *)

Module Base58.

Definition ALPHABET : string :=
  "123456789ABCDEFGHJKLMNPQRSTUVWXYZabcdefghijkmnopqrstuvwxyz".

Fixpoint index_from (i : N) (c : ascii) (s : string) : option N :=
  match s with
  | EmptyString => None
  | String d s' => if Ascii.eqb c d then Some i else index_from (i + 1) c s'
  end.

Definition digit_of_char (c : ascii) : option N := index_from 0 c ALPHABET.

Definition char_of_digit (d : N) : ascii :=
  match String.get (N.to_nat d) ALPHABET with
  | Some c => c
  | None => "1"%char
  end.

Fixpoint digits_of (s : string) : option (list N) :=
  match s with
  | EmptyString => Some []
  | String c s' =>
      match digit_of_char c with
      | None => None
      | Some d =>
          match digits_of s' with
          | None => None
          | Some ds => Some (d :: ds)
          end
      end
  end.

(** The number a big-endian digit list denotes in [base]. *)
Definition value_of (base : N) (ds : list N) : N :=
  fold_left (fun acc d => (acc * base + d)%N) ds 0%N.

Fixpoint digits_le (fuel : nat) (base n : N) : list N :=
  match fuel with
  | O => []
  | S fuel' =>
      if (n =? 0)%N then []
      else (n mod base)%N :: digits_le fuel' base (n / base)%N
  end.

(** The big-endian digits of [n] in [base], without leading zero. *)
Definition digits_be (base n : N) : list N :=
  rev (digits_le (N.size_nat n) base n).

Fixpoint leading_zeros (ds : list N) : nat :=
  match ds with
  | 0%N :: ds' => S (leading_zeros ds')
  | _ => O
  end.

Definition byte_of_N (n : N) : byte :=
  match Byte.of_N n with Some b => b | None => x00 end.

(** [bs58.decode]: a character outside the alphabet makes it throw
    'Non-base58 character' ([None] here); every leading ['1'] is one zero
    byte. *)
Definition decode (s : string) : option (list byte) :=
  match digits_of s with
  | None => None
  | Some ds =>
      Some (replicate (leading_zeros ds) x00
              ++ map byte_of_N (digits_be 256 (value_of 58 ds)))%list
  end.

(** [bs58.encode]. *)
Definition encode (bs : list byte) : string :=
  let ds := map Byte.to_N bs in
  string_of_list_ascii
    (map char_of_digit
       (replicate (leading_zeros ds) 0%N
          ++ digits_be 58 (value_of 256 ds))%list).

End Base58.

(** ** What the platform provides

    The Ed25519 derivation of a public key from a 32-byte seed, the stream of
    seeds the key generator of the runtime produces, and the two constants of
    [constants.ts] that [createWallet] uses. *)

Class Platform := {
  getPublicKey : list byte -> list byte;
  randomSeed : nat -> list byte;
  DEFAULT_AIRDROP_AMOUNT : N;
  DEFAULT_ENV_KEYPAIR_VARIABLE_NAME : string;
}.

(** Seeds and public keys are 32 bytes long. *)
Definition Platform_ok `{Platform} : Prop :=
  (forall seed, length (getPublicKey seed) = 32%nat)
  /\ (forall i, length (randomSeed i) = 32%nat).

(** ** Errors *)

Inductive error : Type :=
| NonBase58Character
| BadSecretKeySize
| ProvidedSecretKeyInvalid
| PleaseSet (variableName : string)
| InvalidSecretKey (variableName : string)
| AlreadyExists (variableName : string)
| NotExtractable
| RpcError (reason : string)
| StillGrinding.

Definition message (e : error) : string :=
  match e with
  | NonBase58Character => "Non-base58 character"
  | BadSecretKeySize => "bad secret key size"
  | ProvidedSecretKeyInvalid => "provided secretKey is invalid"
  | PleaseSet v => "Please set '" +:+ v +:+ "' in environment."
  | InvalidSecretKey v =>
      "Invalid secret key in environment variable '" +:+ v +:+ "'!"
  | AlreadyExists v => "'" +:+ v +:+ "' already exists in env file."
  | NotExtractable => "key is not extractable"
  | RpcError reason => reason
  | StillGrinding => "still grinding"
  end.

(** [hay.includes(needle)]. *)
Fixpoint includes (needle hay : string) : bool :=
  String.prefix needle hay
  || match hay with
     | EmptyString => false
     | String _ hay' => includes needle hay'
     end.

(** JavaScript truthiness of a string that may be [undefined]. *)
Definition truthy (s : option string) : bool :=
  match s with
  | None => false
  | Some EmptyString => false
  | Some (String _ _) => true
  end.

Definition slice {A} (from to : nat) (l : list A) : list A :=
  take (to - from) (drop from l).

(** ** The process environment, files and dotenv *)

Module Dotenv.

(** One line of an env file: a comment, or [KEY=VALUE] split at the first
    ["="]. The model covers unquoted lines without surrounding blanks: it
    reads the records [addKeypairToEnvFile] appends as dotenv does, and
    files made of such records; quotes, [export], ["KEY: value"] lines,
    blanks around the parts and trailing comments are not modelled, so on
    other texts it is not dotenv's reading. *)
Definition parse_line (line : string) : option (string * string) :=
  match line with
  | String "#"%char _ => None
  | _ =>
      match Text.split_eq line with
      | Some (String c k, v) => Some (String c k, v)
      | _ => None
      end
  end.

(** [dotenv.parse]: a later line for a key replaces an earlier one. *)
Definition parse (src : string) : gmap string string :=
  foldl (fun m line =>
           match parse_line line with
           | Some (k, v) => <[k := v]> m
           | None => m
           end) ∅ (Text.lines src).

(** [dotenv.config({ path })]: variables the process already has are kept;
    a file that cannot be read changes nothing. *)
Definition config (fs : gmap string string) (path : string)
    (env : gmap string string) : gmap string string :=
  match fs !! path with
  | Some src => env ∪ parse src
  | None => env
  end.

(** The characters of a key, as dotenv reads keys: letters, digits,
    ["_"], ["."] and ["-"]. *)
Definition name_char (c : ascii) : bool :=
  let n := N_of_ascii c in
  ((48 <=? n) && (n <=? 57))%N        (* 0-9 *)
  || ((65 <=? n) && (n <=? 90))%N     (* A-Z *)
  || ((97 <=? n) && (n <=? 122))%N    (* a-z *)
  || Ascii.eqb c "_"%char || Ascii.eqb c "."%char || Ascii.eqb c "-"%char.

Fixpoint all_chars (p : ascii -> bool) (s : string) : bool :=
  match s with
  | EmptyString => true
  | String c s' => p c && all_chars p s'
  end.

Definition valid_name (s : string) : bool :=
  match s with
  | EmptyString => false
  | String _ _ => all_chars name_char s
  end.

End Dotenv.

(** [fs.appendFile]: the file is created when it does not exist. *)
Definition appendFile (fs : gmap string string) (path text : string)
  : gmap string string :=
  <[path := default EmptyString (fs !! path) +:+ text]> fs.

(** ** keypair helpers (web3.js version 1 API) *)

Module Keypair.

Record Keypair := mkKeypair {
  publicKey : list byte;
  secretKey : list byte;
}.

(** [Keypair.fromSecretKey] of web3.js: 64 bytes, whose second half is the
    public key of the first half. *)
Definition fromSecretKey `{Platform} (sk : list byte) : result error Keypair :=
  if negb (length sk =? 64)%nat then Err BadSecretKeySize
  else
    let pk := slice 32 64 sk in
    let computedPublicKey := getPublicKey (slice 0 32 sk) in
    if forallb (fun ii => bool_decide (pk !! ii = computedPublicKey !! ii))
         (seq 0 32)
    then Ok (mkKeypair pk sk)
    else Err ProvidedSecretKeyInvalid.

(** [keypair.publicKey.toBase58()]. *)
Definition toBase58 (pk : list byte) : string := Base58.encode pk.

Definition keypairToSecretKeyJSON (keypair : Keypair) : string :=
  Json.stringify_bytes (secretKey keypair).

(** [base58.decode(s)] as a call that may throw. *)
Definition base58_decode (s : string) : result error (list byte) :=
  match Base58.decode s with
  | Some bs => Ok bs
  | None => Err NonBase58Character
  end.

Definition getKeypairFromEnvironment `{Platform}
    (env : gmap string string) (variableName : string)
  : result error Keypair :=
  let secretKeyString := env !! variableName in
  if negb (truthy secretKeyString) then Err (PleaseSet variableName)
  else
    let secretKeyString := default EmptyString secretKeyString in
    (* Try the shorter base58 format first *)
    let attempt :=
      match base58_decode secretKeyString with
      | Ok decodedSecretKey => fromSecretKey decodedSecretKey
      | Err e => Err e
      end in
    match attempt with
    | Ok keypair => Ok keypair
    | Err e =>
        if negb (includes "Non-base58 character" (message e))
        then Err (InvalidSecretKey variableName)
        else
          (* Try the longer JSON format *)
          match Json.parse_bytes secretKeyString with
          | None => Err (InvalidSecretKey variableName)
          | Some decodedSecretKey => fromSecretKey decodedSecretKey
          end
    end.

(** The text [addKeypairToEnvFile] appends. *)
Definition env_record (address variableName secretKeyString : string)
  : string :=
  String Text.newline
    ("# Solana Address: " +:+ address +:+
     String Text.newline (variableName +:+ "=" +:+ secretKeyString)).

(** The state the function reads and writes: the process environment and
    the files. The result is the files after the call. *)
Definition addKeypairToEnvFile
    (env : gmap string string) (fs : gmap string string)
    (keypair : Keypair) (variableName : string) (envFileName : option string)
  : result error unit * gmap string string :=
  let envFileName :=
    if negb (truthy envFileName) then ".env"
    else default EmptyString envFileName in
  let existingSecretKey := env !! variableName in
  if truthy existingSecretKey then (Err (AlreadyExists variableName), fs)
  else
    let secretKeyString := keypairToSecretKeyJSON keypair in
    (Ok tt,
     appendFile fs envFileName
       (env_record (toBase58 (publicKey keypair)) variableName
          secretKeyString)).

(** The address written on the comment line just before the last
    [variableName=] line of a file, when there is one. *)
Fixpoint recorded_address_in (variableName : string) (ls : list string)
    (found : option string) : option string :=
  match ls with
  | comment :: ls' =>
      match ls' with
      | entry :: _ =>
          let found' :=
            match Dotenv.parse_line entry with
            | Some (k, _) =>
                if String.eqb k variableName
                then match Text.strip_prefix "# Solana Address: " comment with
                     | Some a => Some a
                     | None => found
                     end
                else found
            | None => found
            end in
          recorded_address_in variableName ls' found'
      | [] => found
      end
  | [] => found
  end.

Definition recorded_address (src variableName : string) : option string :=
  recorded_address_in variableName (Text.lines src) None.

(** Errors that report malformed secret material. *)
Definition malformed_secret_error (variableName : string) (e : error) : bool :=
  match e with
  | InvalidSecretKey v => String.eqb v variableName
  | BadSecretKeySize => true
  | ProvidedSecretKeyInvalid => true
  | _ => false
  end.

(** [value] is the compact Base58 text of the secret key of [kp]. *)
Definition base58_encodes `{Platform} (value : string) (kp : Keypair) : Prop :=
  exists sk, Base58.decode value = Some sk /\ fromSecretKey sk = Ok kp.

(** A key pair object whose public key is the second half of its secret
    key, as [Keypair.generate] and [Keypair.fromSecretKey] make them. *)
Definition consistent (kp : Keypair) : Prop :=
  publicKey kp = slice 32 64 (secretKey kp).

(** The file [addKeypairToEnvFile] writes to. *)
Definition target_file (envFileName : option string) : string :=
  if negb (truthy envFileName) then ".env"
  else default EmptyString envFileName.

End Keypair.


(** ** getKeypairFromEnvironment and the JSON reader of the runtime

    [Uint8Array.from(JSON.parse(text))] reads far more texts than the arrays
    of integers of [Json.parse_bytes]: an object gives as many bytes as its
    [length] property asks for, a string is read character by character, the
    elements of an array may be fractions, exponents or numeric strings, and
    an integer beyond 2^53 is rounded before it is reduced modulo 256. Here
    the reader is an argument of the loader, so that what is proved holds
    whatever the runtime reads: [reader text] is the byte array, and [None]
    where [JSON.parse] or [Uint8Array.from] throws. The body is the one of
    [Keypair.getKeypairFromEnvironment], which is this loader at the reader
    [Json.parse_bytes]. *)

Module Reader.

Import Keypair.

Definition getKeypairFromEnvironment `{Platform}
    (reader : string -> option (list byte))
    (env : gmap string string) (variableName : string)
  : result error Keypair :=
  let secretKeyString := env !! variableName in
  if negb (truthy secretKeyString) then Err (PleaseSet variableName)
  else
    let secretKeyString := default EmptyString secretKeyString in
    (* Try the shorter base58 format first *)
    let attempt :=
      match base58_decode secretKeyString with
      | Ok decodedSecretKey => fromSecretKey decodedSecretKey
      | Err e => Err e
      end in
    match attempt with
    | Ok keypair => Ok keypair
    | Err e =>
        if negb (includes "Non-base58 character" (message e))
        then Err (InvalidSecretKey variableName)
        else
          (* Try the longer JSON format *)
          match reader secretKeyString with
          | None => Err (InvalidSecretKey variableName)
          | Some decodedSecretKey => fromSecretKey decodedSecretKey
          end
    end.

(** [value] is a JSON text of the secret key of [kp]: it is no Base58 text,
    and the runtime reads it as the 64 bytes of the key pair. *)
Definition json_encodes `{Platform} (reader : string -> option (list byte))
    (value : string) (kp : Keypair) : Prop :=
  Base58.decode value = None
  /\ exists sk, reader value = Some sk /\ fromSecretKey sk = Ok kp.

Definition valid_encoding `{Platform} (reader : string -> option (list byte))
    (value : string) (kp : Keypair) : Prop :=
  base58_encodes value kp \/ json_encodes reader value kp.

(** The loader contract with "absent" read as "not set at all": a valid
    encoding loads, an absent variable gives the configuration error, and
    every other value gives a malformed-secret error. *)
Definition loader_contract_absent_only `{Platform}
    (reader : string -> option (list byte))
    (env : gmap string string) (variableName : string) : Prop :=
  (forall value kp, env !! variableName = Some value ->
     valid_encoding reader value kp ->
     getKeypairFromEnvironment reader env variableName = Ok kp)
  /\ (env !! variableName = None ->
      getKeypairFromEnvironment reader env variableName
      = Err (PleaseSet variableName))
  /\ (forall value, env !! variableName = Some value ->
      (forall kp, ~ valid_encoding reader value kp) ->
      exists e, getKeypairFromEnvironment reader env variableName = Err e
                /\ malformed_secret_error variableName e = true).

End Reader.


(** ** State and exceptions

    A call runs on a state [S]; it returns or throws, and what it did to the
    state before throwing stays done. *)

Definition M (S A : Type) : Type := S -> result error A * S.

#[global] Instance M_ret {S} : MRet (M S) := fun A a s => (Ok a, s).

#[global] Instance M_bind {S} : MBind (M S) := fun A B f m s =>
  match m s with
  | (Ok a, s') => f a s'
  | (Err e, s') => (Err e, s')
  end.

Definition throw {S A} (e : error) : M S A := fun s => (Err e, s).

Definition gets {S A} (f : S -> A) : M S A := fun s => (Ok (f s), s).

Definition modify {S} (f : S -> S) : M S unit := fun s => (Ok tt, f s).

(** ** confirmTransaction *)

Module Transaction.

Inductive Commitment := processed | confirmed | finalized.

(** The runtime keeps, for every [AbortController] made so far, whether it
    has been triggered. *)
Record Runtime := mkRuntime {
  controllers : list bool;
}.

(** [new AbortController()]: a new controller, not triggered. *)
Definition new_AbortController : M Runtime nat := fun rt =>
  (Ok (length (controllers rt)),
   mkRuntime (controllers rt ++ [false])).

(** [controller.abort()]. *)
Definition abort (controller : nat) : M Runtime unit :=
  modify (fun rt => mkRuntime (<[controller := true]> (controllers rt))).

(** [controller.signal.aborted]. *)
Definition signal_aborted (controller : nat) : M Runtime bool :=
  gets (fun rt => default false (controllers rt !! controller)).

Record RpcResponse := mkRpcResponse {
  value_err : option string;
}.

(** A connection answers a confirmation request, or rejects it. It sees
    whether the signal it was given has fired and cannot fire it. *)
Record Connection := mkConnection {
  getRecentSignatureConfirmation :
    bool -> string -> Commitment -> result error RpcResponse;
}.

(** [await promise]: the value it resolves to, or its rejection thrown. *)
Definition await {S A} (outcome : result error A) : M S A :=
  fun s => (outcome, s).

(** [getErrorFromRPCResponse] is imported from [./logs]; it is a parameter
    here: it returns, or throws the error it found in the response. *)
Definition confirmTransaction
    (getErrorFromRPCResponse : RpcResponse -> result error unit)
    (connection : Connection) (signature : string)
    (commitment : option Commitment) : M Runtime string :=
  let commitment := default finalized commitment in
  (* We don't actually want to abort the confirmation *)
  controller ← new_AbortController;
  abortSignal ← signal_aborted controller;
  rpcResponse ← await
    (getRecentSignatureConfirmation connection abortSignal signature
       commitment);
  await (getErrorFromRPCResponse rpcResponse);;
  mret signature.

End Transaction.

(** ** The world of the wallet helpers *)

(** A key pair object of the runtime: [keyId] is its identity, [keyBytes]
    the 64 bytes (seed, then public key), [extractable] whether the private
    key can be exported. *)
Record CryptoKeyPair := mkCryptoKeyPair {
  keyId : nat;
  keyBytes : list byte;
  extractable : bool;
}.

Record KeyPairSigner := mkKeyPairSigner {
  address : string;
  keyPair : CryptoKeyPair;
}.

(** The test network: balances in lamports, the funding requests it has
    received, and whether its faucet currently grants requests. *)
Record Network := mkNetwork {
  balances : gmap string N;
  requests : list (string * N);
  faucetOpen : bool;
}.

Record World := mkWorld {
  env : gmap string string;       (* process.env *)
  files : gmap string string;     (* the file system *)
  keys : list CryptoKeyPair;      (* every key pair object created so far *)
  generated : nat;                (* seeds drawn from the key generator *)
  net : Network;
}.

Definition set_env (f : gmap string string -> gmap string string) (w : World)
  : World :=
  mkWorld (f (env w)) (files w) (keys w) (generated w) (net w).

Definition set_files (f : gmap string string -> gmap string string)
    (w : World) : World :=
  mkWorld (env w) (f (files w)) (keys w) (generated w) (net w).

Definition set_net (f : Network -> Network) (w : World) : World :=
  mkWorld (env w) (files w) (keys w) (generated w) (f (net w)).

Definition balance_of (n : Network) (addr : string) : N :=
  default 0%N (balances n !! addr).

(** ** airdropIfRequired *)

Module Sol.

(** Modelled from the spec: [connection.getBalance] of [connect.ts], which is
    not among the sources: the balance query of the network boundary; an
    address the network has never seen holds nothing. *)
Definition getBalance (addr : string) : M World N :=
  gets (fun w => balance_of (net w) addr).

(** Modelled from the spec: [connection.airdrop] of [connect.ts], which is not
    among the sources: one funding request, awaited until it is confirmed;
    a request the faucet refuses is a failure that propagates. *)
Definition airdrop (addr : string) (lamports : N) : M World unit := fun w =>
  let n := net w in
  let issued := (requests n ++ [(addr, lamports)])%list in
  if faucetOpen n then
    (Ok tt,
     set_net (fun _ =>
       mkNetwork (<[addr := (balance_of n addr + lamports)%N]> (balances n))
         issued true) w)
  else
    (Err (RpcError "airdrop failed"),
     set_net (fun _ => mkNetwork (balances n) issued false) w).

(** Modelled from the spec: [airdropIfRequired] of [sol.ts], which is not
    among the sources: fetch the current balance; if it is at least
    [minimumBalance] return it unchanged; otherwise request [airdropAmount],
    wait for the confirmation and return the resulting balance. *)
Definition airdropIfRequired (addr : string)
    (airdropAmount minimumBalance : N) : M World N :=
  balance ← getBalance addr;
  if (minimumBalance <=? balance)%N then mret balance
  else airdrop addr airdropAmount;; getBalance addr.

End Sol.

(** ** createWallet *)

Module Wallet.

(** An optional field of a JavaScript options object. *)
Inductive optional (A : Type) : Type :=
| Undefined
| Null
| Value (a : A).
Arguments Undefined {A}.
Arguments Null {A}.
Arguments Value {A} a.

(** [const { x = d } = options]: the default stands in for [undefined]
    only. *)
Definition or_default {A} (o d : optional A) : optional A :=
  match o with
  | Undefined => d
  | _ => o
  end.

(** Truthiness of a string that may be [undefined] or [null]. *)
Definition truthy_string (o : optional string) : bool :=
  match o with
  | Value (String _ _) => true
  | _ => false
  end.

(** Truthiness of an amount (a bigint) that may be [undefined] or [null]. *)
Definition truthy_amount (o : optional N) : bool :=
  match o with
  | Value n => negb (n =? 0)%N
  | _ => false
  end.

Definition to_option {A} (o : optional A) : option A :=
  match o with
  | Value a => Some a
  | _ => None
  end.

(** The address of a key pair: the Base58 text of its public half. *)
Definition address_of (bytes : list byte) : string :=
  Base58.encode (slice 32 64 bytes).

(** [generateKeyPair]: the next seed of the generator and its public key
    become a new key pair object. *)
Definition generateKeyPair `{Platform} (isExtractable : bool)
  : M World CryptoKeyPair := fun w =>
  let seed := randomSeed (generated w) in
  let k := mkCryptoKeyPair (length (keys w))
             (seed ++ getPublicKey seed)%list isExtractable in
  (Ok k,
   mkWorld (env w) (files w) (keys w ++ [k])%list (S (generated w)) (net w)).

(** [createKeyPairFromBytes]: a new key pair object around given bytes. *)
Definition createKeyPairFromBytes (bytes : list byte) (isExtractable : bool)
  : M World CryptoKeyPair := fun w =>
  let k := mkCryptoKeyPair (length (keys w)) bytes isExtractable in
  (Ok k,
   mkWorld (env w) (files w) (keys w ++ [k])%list (generated w) (net w)).

Definition createSignerFromKeyPair (k : CryptoKeyPair) : M World KeyPairSigner :=
  mret (mkKeyPairSigner (address_of (keyBytes k)) k).

Record GrindOptions := mkGrindOptions {
  grind_prefix : option string;
  grind_suffix : option string;
  silenceGrindProgress : bool;
  isPrivateKeyExtractable : option string;
}.

(** The phrase [createWallet] passes to ask for an extractable key. *)
Definition EXTRACTABLE_ACKNOWLEDGEMENT : string :=
  "yes I understand the risk of extractable private keys and will delete this keypair shortly after saving it to a file".

Definition grind_matches (o : GrindOptions) (encoded : string) : bool :=
  match grind_prefix o with
  | Some p => Text.startsWith p encoded
  | None => true
  end
  && match grind_suffix o with
     | Some s => Text.endsWith s encoded
     | None => true
     end.

(** Modelled from the spec: [grindKeyPair] of [keypair.ts], which is not among
    the sources: repeatedly generate a fresh key pair and derive the text of
    its address; accept the first one that starts with the prefix (if given)
    and ends with the suffix (if given). The key is extractable only when
    the option equals the acknowledgement phrase. The search has no bound;
    [fuel] is the number of attempts followed here, and [StillGrinding]
    stands for a search that is still running after them. *)
Fixpoint grindKeyPair `{Platform} (fuel : nat) (o : GrindOptions)
  : M World CryptoKeyPair :=
  match fuel with
  | O => throw StillGrinding
  | S fuel' =>
      k ← generateKeyPair
            (bool_decide
               (isPrivateKeyExtractable o = Some EXTRACTABLE_ACKNOWLEDGEMENT));
      if grind_matches o (address_of (keyBytes k)) then mret k
      else grindKeyPair fuel' o
  end.

(** Modelled from the spec: [addKeyPairSignerToEnvFile] of [keypair.ts], which
    is not among the sources: append a comment line with the derived address
    plus the [KEY=VALUE] line; fail, without touching the file, if the
    variable is already present in it. Exporting the private key needs an
    extractable key. *)
Definition addKeyPairSignerToEnvFile (signer : KeyPairSigner)
    (variableName envFileName : string) : M World unit := fun w =>
  let src := default EmptyString (files w !! envFileName) in
  if bool_decide (is_Some (Dotenv.parse src !! variableName))
  then (Err (AlreadyExists variableName), w)
  else if negb (extractable (keyPair signer)) then (Err NotExtractable, w)
  else
    (Ok tt,
     set_files (fun fs =>
       appendFile fs envFileName
         (Keypair.env_record (address signer) variableName
            (Json.stringify_bytes (keyBytes (keyPair signer))))) w).

(** [dotenv.config({ path })]. *)
Definition dotenv_config (path : string) : M World unit :=
  modify (fun w => set_env (Dotenv.config (files w) path) w).

(** Modelled from the spec: [loadWalletFromEnvironment] of [keypair.ts], which
    is not among the sources: read the variable, accept either the compact
    single-string encoding or the JSON array-of-bytes encoding (as
    [getKeypairFromEnvironment] does), and make a non-extractable signer of
    the bytes. *)
Definition loadWalletFromEnvironment `{Platform} (variableName : string)
  : M World KeyPairSigner := fun w =>
  match Keypair.getKeypairFromEnvironment (env w) variableName with
  | Err e => (Err e, w)
  | Ok kp =>
      (k ← createKeyPairFromBytes (Keypair.secretKey kp) false;
       createSignerFromKeyPair k) w
  end.

Record Options := mkOptions {
  prefix : optional string;
  suffix : optional string;
  envFileName : optional string;
  envVariableName : option string;
  airdropAmount : optional N;
}.

(** [createWalletFactory(airdropIfRequired)]. [fuel] is passed on to
    [grindKeyPair]. *)
Definition createWalletFactory `{Platform}
    (airdropIfRequired : string -> N -> N -> M World N)
    (fuel : nat) (options : Options) : M World KeyPairSigner :=
  (* If the user wants to save to an env variable, we need to save to a file *)
  let options_envFileName :=
    if truthy (envVariableName options)
       && negb (truthy_string (envFileName options))
    then Value ".env"
    else envFileName options in
  let prefix := or_default (prefix options) Null in
  let suffix := or_default (suffix options) Null in
  let envFileName := or_default options_envFileName Null in
  let envVariableName :=
    default DEFAULT_ENV_KEYPAIR_VARIABLE_NAME (envVariableName options) in
  let airdropAmount :=
    or_default (airdropAmount options) (Value DEFAULT_AIRDROP_AMOUNT) in
  keyPairSigner ←
    match envFileName with
    | Value (String c rest) =>
        let envFileName := String c rest in
        temporaryExtractableKeyPair ←
          grindKeyPair fuel
            (mkGrindOptions (to_option prefix) (to_option suffix) false
               (Some EXTRACTABLE_ACKNOWLEDGEMENT));
        temporaryExtractableKeyPairSigner ←
          createSignerFromKeyPair temporaryExtractableKeyPair;
        addKeyPairSignerToEnvFile temporaryExtractableKeyPairSigner
          envVariableName envFileName;;
        dotenv_config envFileName;;
        loadWalletFromEnvironment envVariableName
    | _ =>
        keyPair ←
          grindKeyPair fuel
            (mkGrindOptions (to_option prefix) (to_option suffix) false None);
        createSignerFromKeyPair keyPair
    end;
  match airdropAmount with
  | Value amount =>
      if negb (amount =? 0)%N then
        (* Since this is a brand new wallet (and has no existing balance),
           we can just use the airdrop amount for the minimum balance *)
        airdropIfRequired (address keyPairSigner) amount amount;;
        mret keyPairSigner
      else mret keyPairSigner
  | _ => mret keyPairSigner
  end.

(** A prefix or suffix that is absent or empty. *)
Definition no_constraint (o : option string) : Prop :=
  o = None \/ o = Some EmptyString.

(** Persistence is requested by a file name, or implied by a variable
    name. *)
Definition requests_persistence (options : Options) : bool :=
  truthy_string (envFileName options) || truthy (envVariableName options).

(** The file and the variable a call that requests persistence writes. *)
Definition target_file (options : Options) : string :=
  match envFileName options with
  | Value (String c rest) => String c rest
  | _ => ".env"
  end.

Definition target_variable `{Platform} (options : Options) : string :=
  default DEFAULT_ENV_KEYPAIR_VARIABLE_NAME (envVariableName options).

(** The part of [createWallet] that makes the signer: everything up to the
    funding step. *)
Definition newSigner `{Platform} (fuel : nat) (options : Options)
  : M World KeyPairSigner :=
  let options_envFileName :=
    if truthy (envVariableName options)
       && negb (truthy_string (envFileName options))
    then Value ".env"
    else envFileName options in
  let prefix := or_default (prefix options) Null in
  let suffix := or_default (suffix options) Null in
  let envFileName := or_default options_envFileName Null in
  let envVariableName :=
    default DEFAULT_ENV_KEYPAIR_VARIABLE_NAME (envVariableName options) in
  match envFileName with
  | Value (String c rest) =>
      let envFileName := String c rest in
      temporaryExtractableKeyPair ←
        grindKeyPair fuel
          (mkGrindOptions (to_option prefix) (to_option suffix) false
             (Some EXTRACTABLE_ACKNOWLEDGEMENT));
      temporaryExtractableKeyPairSigner ←
        createSignerFromKeyPair temporaryExtractableKeyPair;
      addKeyPairSignerToEnvFile temporaryExtractableKeyPairSigner
        envVariableName envFileName;;
      dotenv_config envFileName;;
      loadWalletFromEnvironment envVariableName
  | _ =>
      keyPair ←
        grindKeyPair fuel
          (mkGrindOptions (to_option prefix) (to_option suffix) false None);
      createSignerFromKeyPair keyPair
  end.

(** The amount after the default has been filled in. *)
Definition effective_amount `{Platform} (options : Options) : optional N :=
  or_default (airdropAmount options) (Value DEFAULT_AIRDROP_AMOUNT).

(** The funding step of [createWallet] for a signer that has been made. *)
Definition fund (airdropIfRequired : string -> N -> N -> M World N)
    (amount : optional N) (keyPairSigner : KeyPairSigner)
  : M World KeyPairSigner :=
  match amount with
  | Value a =>
      if negb (a =? 0)%N then
        airdropIfRequired (address keyPairSigner) a a;; mret keyPairSigner
      else mret keyPairSigner
  | _ => mret keyPairSigner
  end.

(** The options the temporary key pair is ground with. *)
Definition temporary_grind_options (options : Options) : GrindOptions :=
  mkGrindOptions (to_option (or_default (prefix options) Null))
    (to_option (or_default (suffix options) Null)) false
    (Some EXTRACTABLE_ACKNOWLEDGEMENT).

(** "Every non-null amount is funded by a call of [airdropIfRequired] with
    that amount as the minimum", for a given [airdropIfRequired]. *)
Definition funds_by_invoking `{Platform}
    (airdropIfRequired : string -> N -> N -> M World N)
    (fuel : nat) (options : Options) (w : World) : Prop :=
  forall a s w1,
    airdropAmount options = Value a ->
    newSigner fuel options w = (Ok s, w1) ->
    createWalletFactory airdropIfRequired fuel options w
    = (airdropIfRequired (address s) a a ≫= fun _ => mret s) w1.

End Wallet.

(** ** Notions used in the statements *)

(** A character other than the line feed. *)
Definition not_newline (c : ascii) : bool := negb (Ascii.eqb c Text.newline).

(** The number a byte stands for in a JSON array. *)
Definition byte_value (b : byte) : Z := Z.of_N (Byte.to_N b).

(** The two lines of a record. *)
Definition comment_line (addr : string) : string :=
  "# Solana Address: " +:+ addr.

Definition entry_line (variableName secretKeyString : string) : string :=
  variableName +:+ String "="%char secretKeyString.

(** An [airdropIfRequired] that only reports that it was called. *)
Definition probe (addr : string) (airdropAmount minimumBalance : N)
  : M World N :=
  throw (RpcError "airdropIfRequired was called").


(** ** Concrete states and platforms used in the examples below *)

Definition airdrop_test_network : Network :=
  mkNetwork {[ "alice" := 999999999%N ]} [] true.

Definition airdrop_test_world : World :=
  mkWorld ∅ ∅ [] 0 airdrop_test_network.

(** A platform to run the definitions on: seeds are 32 equal bytes, and the
    public key of a seed is the seed with every byte incremented. *)
Definition test_seed (i : nat) : list byte :=
  replicate 32 (Base58.byte_of_N (N.of_nat i mod 256)).

Definition test_getPublicKey (seed : list byte) : list byte :=
  take 32
    (map (fun b => Base58.byte_of_N ((Byte.to_N b + 1) mod 256)) seed
       ++ replicate 32 x00)%list.

Definition test_platform : Platform :=
  Build_Platform test_getPublicKey test_seed 1000000000 "PRIVATE_KEY".

Definition test_secretKey : list byte :=
  (test_seed 7 ++ test_getPublicKey (test_seed 7))%list.

Definition test_keypair : Keypair.Keypair :=
  Keypair.mkKeypair (test_getPublicKey (test_seed 7)) test_secretKey.

Definition empty_world : World :=
  mkWorld ∅ ∅ [] 0 (mkNetwork ∅ [] true).

Definition zero_amount_options : Wallet.Options :=
  Wallet.mkOptions Wallet.Undefined Wallet.Undefined Wallet.Undefined None
    (Wallet.Value 0%N).

Definition persist_options : Wallet.Options :=
  Wallet.mkOptions Wallet.Undefined Wallet.Undefined Wallet.Undefined
    (Some "WALLET") Wallet.Undefined.

(** The temporary key pair and the world after grinding it, for the
    persistence example. *)
Definition test_temp : CryptoKeyPair :=
  mkCryptoKeyPair 0 (test_seed 0 ++ test_getPublicKey (test_seed 0))%list true.

Definition test_ground_world : World :=
  mkWorld ∅ ∅ [test_temp] 1 (mkNetwork ∅ [] true).

Definition funded_options : Wallet.Options :=
  Wallet.mkOptions Wallet.Undefined Wallet.Undefined Wallet.Undefined None
    (Wallet.Value 5000%N).

Definition default_options : Wallet.Options :=
  Wallet.mkOptions Wallet.Undefined Wallet.Undefined Wallet.Undefined None
    Wallet.Undefined.

(** The signer a call without persistence makes first, and the world after
    it has been made. *)
Definition test_plain_key : CryptoKeyPair :=
  mkCryptoKeyPair 0 (test_seed 0 ++ test_getPublicKey (test_seed 0))%list
    false.

Definition test_plain_signer : KeyPairSigner :=
  mkKeyPairSigner (Wallet.address_of (keyBytes test_plain_key)) test_plain_key.

Definition test_plain_world : World :=
  mkWorld ∅ ∅ [test_plain_key] 1 (mkNetwork ∅ [] true).

(** ** getKeypairFromFile *)

Module KeypairFile.

(** Default value from Solana CLI *)
Definition DEFAULT_FILEPATH : string := "~/.config/solana/id.json".

(** What the function throws: its own two errors, a parse error it throws
    again as it caught it, or the error of [Keypair.fromSecretKey]. *)
Inductive file_error : Type :=
| CouldNotRead (filepath : string)
| InvalidSecretKeyFile (filepath : string)
| Rethrown (parse_message : string)
| FromSecretKey (e : error).

Definition file_message (e : file_error) : string :=
  match e with
  | CouldNotRead filepath =>
      "Could not read keypair from file at '" +:+ filepath +:+ "'"
  | InvalidSecretKeyFile filepath =>
      "Invalid secret key file at '" +:+ filepath +:+ "'!"
  | Rethrown parse_message => parse_message
  | FromSecretKey e => message e
  end.

(** What Node provides to the function: [path.join], and
    [Uint8Array.from(JSON.parse(text))], which gives the bytes or throws an
    error with a message. *)
Record Node := mkNode {
  path_join : string -> string -> string;
  parse_bytes : string -> result string (list byte);
}.

Definition getKeypairFromFile `{Platform} (node : Node)
    (env : gmap string string) (fs : gmap string string)
    (filepath : option string) : result file_error Keypair.Keypair :=
  (* Work out correct file name *)
  let filepath :=
    if negb (truthy filepath) then DEFAULT_FILEPATH
    else default EmptyString filepath in
  let filepath :=
    match filepath with
    | String "~"%char rest =>
        let home := env !! "HOME" in
        if truthy home then path_join node (default EmptyString home) rest
        else filepath
    | _ => filepath
    end in
  (* Get contents of file *)
  match fs !! filepath with
  | None => Err (CouldNotRead filepath)
  | Some fileContents =>
      (* Parse contents of file *)
      match parse_bytes node fileContents with
      | Err parse_message =>
          if negb (includes "Unexpected token" parse_message)
          then Err (Rethrown parse_message)
          else Err (InvalidSecretKeyFile filepath)
      | Ok parsedFileContents =>
          match Keypair.fromSecretKey parsedFileContents with
          | Ok keypair => Ok keypair
          | Err e => Err (FromSecretKey e)
          end
      end
  end.

(** The file the function reads: the default path when none is given, and
    a leading ["~"] replaced by the home directory when there is one. *)
Definition resolved_filepath (node : Node) (env : gmap string string)
    (filepath : option string) : string :=
  let filepath :=
    if negb (truthy filepath) then DEFAULT_FILEPATH
    else default EmptyString filepath in
  match filepath with
  | String "~"%char rest =>
      if truthy (env !! "HOME")
      then path_join node (default EmptyString (env !! "HOME")) rest
      else filepath
  | _ => filepath
  end.

End KeypairFile.

(** ** makeKeypairs *)

Module Keypairs.

(** A JavaScript number: not a number, an infinity, or a finite value. A
    finite value is written as a fraction; every finite double is one. *)
Inductive number :=
| NaN
| Infinity (negative : bool)
| Fraction (numerator : Z) (denominator : positive).

(** A whole number as a JavaScript number. *)
Definition integer (n : N) : number := Fraction (Z.of_N n) 1.

Inductive integer_or_infinity :=
| Int (z : Z)
| PlusInfinity
| MinusInfinity.

(** [ToIntegerOrInfinity]: [NaN] is 0, a finite value loses its fraction. *)
Definition ToIntegerOrInfinity (n : number) : integer_or_infinity :=
  match n with
  | NaN => Int 0
  | Infinity false => PlusInfinity
  | Infinity true => MinusInfinity
  | Fraction p q => Int (Z.quot p (Z.pos q))
  end.

Definition MAX_SAFE_INTEGER : N := 2 ^ 53 - 1.

(** [ToLength], which [Array.from] applies to the [length] property of an
    array-like object: at least 0, at most 2^53 - 1. *)
Definition ToLength (n : number) : N :=
  match ToIntegerOrInfinity n with
  | Int z => if (z <=? 0)%Z then 0%N else N.min (Z.to_N z) MAX_SAFE_INTEGER
  | PlusInfinity => MAX_SAFE_INTEGER
  | MinusInfinity => 0%N
  end.

(** [RangeError: Invalid array length]. *)
Inductive RangeError := InvalidArrayLength.

(** [Keypair.generate] of web3.js: the next seed of the generator, its
    public key, and the two put together as the secret key. The state is
    the number of seeds drawn so far. *)
Definition generate `{Platform} (drawn : nat) : Keypair.Keypair * nat :=
  let seed := randomSeed drawn in
  let publicKey := getPublicKey seed in
  (Keypair.mkKeypair publicKey (seed ++ publicKey)%list, S drawn).

(** The loop of [Array.from]: [f] is called once per index, in order. *)
Fixpoint fill {A} (length : nat) (f : nat -> A * nat) (drawn : nat)
  : list A * nat :=
  match length with
  | O => ([], drawn)
  | S length' =>
      let (x, drawn1) := f drawn in
      let (xs, drawn2) := fill length' f drawn1 in
      (x :: xs, drawn2)
  end.

(** [Array.from({ length }, f)]. The object is not iterable, so its length
    is read with [ToLength] and the array is made with [new Array(len)]
    before [f] is ever called: a length of 2^32 or more throws there. Running
    out of memory below that length is outside the model. *)
Definition Array_from {A} (length : number) (f : nat -> A * nat) (drawn : nat)
  : result RangeError (list A) * nat :=
  let len := ToLength length in
  if (2 ^ 32 <=? len)%N then (Err InvalidArrayLength, drawn)
  else let (xs, drawn') := fill (N.to_nat len) f drawn in (Ok xs, drawn').

Definition makeKeypairs `{Platform} (amount : number) (drawn : nat)
  : result RangeError (list Keypair.Keypair) * nat :=
  Array_from amount generate drawn.

(** The key pair made of a seed. *)
Definition keypair_of_seed `{Platform} (seed : list byte) : Keypair.Keypair :=
  Keypair.mkKeypair (getPublicKey seed) (seed ++ getPublicKey seed)%list.

End Keypairs.

(** A Node whose [path.join] puts the two parts together and whose parser
    is the one of [Json], every failure of which reads "Unexpected token". *)
Definition test_node : KeypairFile.Node :=
  KeypairFile.mkNode (fun a b => a +:+ b)
    (fun text =>
       match Json.parse_bytes text with
       | Some bs => Ok bs
       | None => Err "Unexpected token"
       end).

(** A home directory with the key file of the Solana CLI in it, and a
    directory with a file that holds an array too short for a key pair. *)
Definition home_env : gmap string string := {[ "HOME" := "/home/sol" ]}.

Definition home_files : gmap string string :=
  {[ "/home/sol/.config/solana/id.json"
     := Keypair.keypairToSecretKeyJSON test_keypair ]}.

Definition short_files : gmap string string := {[ "id.json" := "[1,2,3]" ]}.

(** The options the key pair of a wallet without persistence is ground
    with. *)
Definition plain_grind_options (options : Wallet.Options)
  : Wallet.GrindOptions :=
  Wallet.mkGrindOptions
    (Wallet.to_option (Wallet.or_default (Wallet.prefix options) Wallet.Null))
    (Wallet.to_option (Wallet.or_default (Wallet.suffix options) Wallet.Null))
    false None.

Definition null_amount_options : Wallet.Options :=
  Wallet.mkOptions Wallet.Undefined Wallet.Undefined Wallet.Undefined None
    Wallet.Null.

(** The world of the persistence example with a faucet that refuses. *)
Definition closed_world : World :=
  mkWorld ∅ ∅ [] 0 (mkNetwork ∅ [] false).

Definition closed_ground_world : World :=
  mkWorld ∅ ∅ [test_temp] 1 (mkNetwork ∅ [] false).

(** A digit list that is empty or starts with a non-zero digit. *)
Definition no_leading_zero (ds : list N) : Prop :=
  match ds with
  | d :: _ => d <> 0%N
  | [] => True
  end.

Definition test_keypair2 : Keypair.Keypair :=
  Keypair.mkKeypair (test_getPublicKey (test_seed 8))
    (test_seed 8 ++ test_getPublicKey (test_seed 8))%list.

(** A process that already has the variable of the persistence example,
    set to the text of another key pair, and no env file yet; and the same
    after the temporary key pair has been ground. *)
Definition preset_world : World :=
  mkWorld {[ "WALLET" := Keypair.keypairToSecretKeyJSON test_keypair ]} ∅
    [] 0 (mkNetwork ∅ [] true).




(** The text of a file that [addKeypairToEnvFile] alone has written: the
    records of the given key pairs under the given names, in the order of the
    calls. *)
Definition records_text (records : list (Keypair.Keypair * string)) : string :=
  foldl (fun src r =>
           src +:+ Keypair.env_record (Keypair.toBase58 (Keypair.publicKey r.1))
                     r.2 (Keypair.keypairToSecretKeyJSON r.1))
    EmptyString records.

(** Each name with the text of the key pair last written under it. *)
Definition records_map (records : list (Keypair.Keypair * string))
  : gmap string string :=
  foldl (fun m r => <[r.2 := Keypair.keypairToSecretKeyJSON r.1]> m) ∅ records.

(** A reader that reads, besides the arrays of integers, the text of the
    empty object as the runtime does: [Uint8Array.from({})] has no byte. *)
Definition object_reader (text : string) : option (list byte) :=
  if String.eqb text "{}" then Some [] else Json.parse_bytes text.

(** * Properties *)

(** ** Running a computation *)

Lemma run_bind {S A B} (m : M S A) (f : A -> M S B) (s : S) :
  (m ≫= f) s =
  match m s with
  | (Ok a, s') => f a s'
  | (Err e, s') => (Err e, s')
  end.
Proof. reflexivity. Qed.

Lemma run_ret {S A} (a : A) (s : S) : (mret a : M S A) s = (Ok a, s).
Proof. reflexivity. Qed.

(** ** airdropIfRequired *)

Section AirdropIfRequired.

Import Sol.

(** The run of [airdropIfRequired] on a balance below the minimum. *)
Lemma airdropIfRequired_run_below
    (w : World) (addr : string) (airdropAmount minimumBalance : N) :
  (balance_of (net w) addr < minimumBalance)%N ->
  airdropIfRequired addr airdropAmount minimumBalance w
  = if faucetOpen (net w) then
      (Ok (balance_of (net w) addr + airdropAmount)%N,
       set_net (fun _ =>
         mkNetwork
           (<[addr := (balance_of (net w) addr + airdropAmount)%N]>
              (balances (net w)))
           (requests (net w) ++ [(addr, airdropAmount)])%list true) w)
    else
      (Err (RpcError "airdrop failed"),
       set_net (fun _ =>
         mkNetwork (balances (net w))
           (requests (net w) ++ [(addr, airdropAmount)])%list false) w).
Proof.
  intros Hlt. unfold airdropIfRequired.
  rewrite run_bind. unfold getBalance at 1, gets. cbn beta iota.
  destruct (N.leb_spec minimumBalance (balance_of (net w) addr)); [lia |].
  rewrite run_bind. unfold airdrop.
  destruct (faucetOpen (net w)); [| reflexivity].
  cbn beta iota. unfold getBalance, gets. cbn [net set_net].
  unfold balance_of at 1. cbn [balances].
  by rewrite lookup_insert_eq.
Qed.

(** C1. When the fetched balance of the address is strictly below the
    minimum, exactly one funding request, for [airdropAmount], is issued; and
    when the network grants it the call returns the resulting balance, which
    is the prior balance plus [airdropAmount]. *)
Theorem airdropIfRequired_funds_when_below_minimum
    (w : World) (addr : string) (airdropAmount minimumBalance : N) :
  (balance_of (net w) addr < minimumBalance)%N ->
  let prior := balance_of (net w) addr in
  let (r, w') := airdropIfRequired addr airdropAmount minimumBalance w in
  requests (net w') = (requests (net w) ++ [(addr, airdropAmount)])%list
  /\ (faucetOpen (net w) = true ->
      r = Ok (prior + airdropAmount)%N
      /\ balance_of (net w') addr = (prior + airdropAmount)%N).
Proof.
  intros Hlt prior.
  unfold airdropIfRequired.
  rewrite run_bind. unfold getBalance at 1, gets. cbn beta iota.
  fold prior.
  destruct (N.leb_spec minimumBalance prior) as [Hle | _]; [lia |].
  rewrite run_bind. unfold airdrop.
  destruct (faucetOpen (net w)) eqn:Hopen; cbn.
  - split; [reflexivity |]. intros _.
    unfold balance_of at 1 3. cbn.
    rewrite lookup_insert_eq. cbn. auto.
  - split; [reflexivity | discriminate].
Qed.

Lemma airdropIfRequired_funds_when_below_minimum_witness :
  let (r, w') :=
    Sol.airdropIfRequired "alice" 1000000000 1000000000 airdrop_test_world in
  requests (net w') = [("alice", 1000000000%N)]
  /\ (true = true ->
      r = Ok 1999999999%N /\ balance_of (net w') "alice" = 1999999999%N).
Proof.
  apply (airdropIfRequired_funds_when_below_minimum airdrop_test_world
           "alice" 1000000000 1000000000).
  vm_compute. reflexivity.
Defined.

(** C2. When the fetched balance is at least the minimum, no funding
    request is issued, nothing at all is written, and the call returns the
    balance that was already there. *)
Theorem airdropIfRequired_skips_when_sufficient
    (w : World) (addr : string) (airdropAmount minimumBalance : N) :
  (minimumBalance <= balance_of (net w) addr)%N ->
  airdropIfRequired addr airdropAmount minimumBalance w
  = (Ok (balance_of (net w) addr), w).
Proof.
  intros Hle. unfold airdropIfRequired.
  rewrite run_bind. unfold getBalance, gets. cbn beta iota.
  destruct (N.leb_spec minimumBalance (balance_of (net w) addr)); [| lia].
  reflexivity.
Qed.

Lemma airdropIfRequired_skips_when_sufficient_witness :
  Sol.airdropIfRequired "alice" 1000000000 500000 airdrop_test_world
  = (Ok 999999999%N, airdrop_test_world).
Proof.
  apply (airdropIfRequired_skips_when_sufficient airdrop_test_world
           "alice" 1000000000 500000).
  vm_compute. discriminate.
Defined.

End AirdropIfRequired.

(** The scenario of the test "airdropIfRequired does airdrop when
    necessary": a new address, first 1 SOL - 1 lamport under a minimum of
    500000 lamports, then 1 SOL under a minimum of 1 SOL. *)
Example airdrop_twice :
  let w0 := mkWorld ∅ ∅ [] 0 (mkNetwork ∅ [] true) in
  let (r1, w1) := Sol.airdropIfRequired "user" 999999999 500000 w0 in
  let (r2, w2) := Sol.airdropIfRequired "user" 1000000000 1000000000 w1 in
  r1 = Ok 999999999%N /\ r2 = Ok 1999999999%N
  /\ requests (net w2) = [("user", 999999999%N); ("user", 1000000000%N)].
Proof. vm_compute. auto. Qed.

(** ** confirmTransaction *)

Section ConfirmTransaction.

Import Transaction.

Variable getErrorFromRPCResponse : RpcResponse -> result error unit.

(** What triggering a controller would look like: its signal reads as
    fired from then on. *)
Lemma abort_fires (controller : nat) (rt : Runtime) :
  controller < length (controllers rt) ->
  (abort controller;; signal_aborted controller) rt
  = (Ok true, mkRuntime (<[controller := true]> (controllers rt))).
Proof.
  intros Hlt. rewrite run_bind. unfold abort, modify, signal_aborted, gets.
  cbn [controllers]. by rewrite list_lookup_insert_eq.
Qed.

(** C8. On every path of [confirmTransaction] the abort controller it makes
    is left untriggered, as is every older one; the signal handed to the
    confirmation call has not fired; and the outcome of the call is that of
    the completed confirmation: the signature when the response carries no
    error, the failure otherwise. *)
Theorem confirmTransaction_never_aborts
    (connection : Connection) (signature : string)
    (commitment : option Commitment) (rt : Runtime) :
  let (r, rt') :=
    confirmTransaction getErrorFromRPCResponse connection signature
      commitment rt in
  controllers rt' = (controllers rt ++ [false])%list
  /\ signal_aborted (length (controllers rt)) rt' = (Ok false, rt')
  /\ r = match getRecentSignatureConfirmation connection false signature
                 (default finalized commitment) with
         | Ok rpcResponse =>
             match getErrorFromRPCResponse rpcResponse with
             | Ok _ => Ok signature
             | Err e => Err e
             end
         | Err e => Err e
         end.
Proof.
  unfold confirmTransaction.
  rewrite run_bind. unfold new_AbortController at 1. cbn beta iota.
  rewrite run_bind. unfold signal_aborted at 1, gets. cbn beta iota.
  cbn [controllers].
  assert (Hnew : (controllers rt ++ [false])%list !! length (controllers rt)
                 = Some false).
  { rewrite lookup_app_r by lia. by rewrite Nat.sub_diag. }
  rewrite Hnew. cbn [default from_option id].
  rewrite run_bind. unfold await at 1.
  destruct (getRecentSignatureConfirmation connection false signature
              (default finalized commitment)) as [rpcResponse | e].
  - rewrite run_bind. unfold await at 1.
    destruct (getErrorFromRPCResponse rpcResponse) as [[] | e];
      cbn; unfold signal_aborted, gets; cbn; rewrite Hnew; auto.
  - cbn. unfold signal_aborted, gets; cbn; rewrite Hnew; auto.
Qed.

End ConfirmTransaction.

(** ** The key pair grinder *)

Section Grinder.

Import Wallet.

Context `{Platform}.

Lemma startsWith_empty (s : string) : Text.startsWith EmptyString s = true.
Proof. destruct s; reflexivity. Qed.

Lemma endsWith_empty (s : string) : Text.endsWith EmptyString s = true.
Proof. unfold Text.endsWith. cbn. destruct (Text.rev_string s); reflexivity. Qed.

(** C10. With an empty or absent prefix and suffix the grinder accepts the
    first key pair it generates: one seed is drawn, and the key pair made
    of it is returned. *)
Theorem grindKeyPair_empty_matches_first
    (fuel : nat) (o : GrindOptions) (w : World) :
  no_constraint (grind_prefix o) ->
  no_constraint (grind_suffix o) ->
  grindKeyPair (S fuel) o w
  = generateKeyPair
      (bool_decide
         (isPrivateKeyExtractable o = Some EXTRACTABLE_ACKNOWLEDGEMENT)) w
  /\ generated (snd (grindKeyPair (S fuel) o w)) = S (generated w)
  /\ (exists k, fst (grindKeyPair (S fuel) o w) = Ok k
                /\ keyBytes k
                   = (randomSeed (generated w)
                        ++ getPublicKey (randomSeed (generated w)))%list).
Proof.
  intros Hp Hs.
  assert (Hm : forall a, grind_matches o a = true).
  { intros a. unfold grind_matches.
    destruct Hp as [-> | ->], Hs as [-> | ->];
      rewrite ?startsWith_empty, ?endsWith_empty; reflexivity. }
  assert (Heq : grindKeyPair (S fuel) o w
                = generateKeyPair
                    (bool_decide
                       (isPrivateKeyExtractable o
                        = Some EXTRACTABLE_ACKNOWLEDGEMENT)) w).
  { cbn [grindKeyPair]. rewrite run_bind.
    unfold generateKeyPair. cbn beta iota. rewrite Hm. reflexivity. }
  rewrite Heq. split; [reflexivity |].
  unfold generateKeyPair. cbn. eauto.
Qed.

End Grinder.

Lemma grindKeyPair_empty_matches_first_witness :
  let o := Wallet.mkGrindOptions None (Some EmptyString) false None in
  @Wallet.grindKeyPair test_platform 1 o empty_world
  = @Wallet.generateKeyPair test_platform
      (bool_decide
         (Wallet.isPrivateKeyExtractable o
          = Some Wallet.EXTRACTABLE_ACKNOWLEDGEMENT)) empty_world
  /\ generated (snd (@Wallet.grindKeyPair test_platform 1 o empty_world)) = 1
  /\ (exists k,
        fst (@Wallet.grindKeyPair test_platform 1 o empty_world) = Ok k
        /\ keyBytes k
           = (@randomSeed test_platform (generated empty_world)
                ++ @getPublicKey test_platform
                     (@randomSeed test_platform (generated empty_world)))%list).
Proof.
  apply (@grindKeyPair_empty_matches_first test_platform 0
           (Wallet.mkGrindOptions None (Some EmptyString) false None)
           empty_world).
  - left. reflexivity.
  - right. reflexivity.
Defined.

(** ** Texts *)

Section Texts.

Lemma append_cons (x : ascii) (a b : string) :
  String x a +:+ b = String x (a +:+ b).
Proof. reflexivity. Qed.

Lemma append_nil (b : string) : EmptyString +:+ b = b.
Proof. reflexivity. Qed.

Lemma append_length (a b : string) :
  String.length (a +:+ b) = String.length a + String.length b.
Proof.
  induction a as [| x a IH]; [reflexivity |].
  rewrite append_cons. cbn [String.length]. by rewrite IH.
Qed.

Lemma append_assoc (a b c : string) : (a +:+ b) +:+ c = a +:+ (b +:+ c).
Proof.
  induction a as [| x a IH]; [reflexivity |].
  rewrite !append_cons. by rewrite IH.
Qed.

Lemma all_chars_app (p : ascii -> bool) (a b : string) :
  Dotenv.all_chars p (a +:+ b) = Dotenv.all_chars p a && Dotenv.all_chars p b.
Proof.
  induction a as [| x a IH]; [reflexivity |].
  rewrite append_cons. cbn [Dotenv.all_chars].
  rewrite IH. by rewrite andb_assoc.
Qed.

Lemma lines_nonempty (s : string) : Text.lines s <> [].
Proof.
  induction s as [| c s IH]; cbn; [discriminate |].
  destruct (Ascii.eqb c Text.newline); [discriminate |].
  destruct (Text.lines s); discriminate.
Qed.

(** A text without newline is one line. *)
Lemma lines_single (s : string) :
  Dotenv.all_chars not_newline s = true -> Text.lines s = [s].
Proof.
  induction s as [| c s IH]; cbn; [reflexivity |].
  intros [Hc Hs]%andb_true_iff. unfold not_newline in Hc.
  destruct (Ascii.eqb c Text.newline); [discriminate |].
  by rewrite (IH Hs).
Qed.

(** Appending a newline and more text appends the lines of that text. *)
Lemma lines_app (a b : string) :
  Text.lines (a +:+ String Text.newline b)
  = (Text.lines a ++ Text.lines b)%list.
Proof.
  induction a as [| c a IH].
  - rewrite append_nil. cbn [Text.lines app].
    by rewrite Ascii.eqb_refl.
  - rewrite append_cons. cbn [Text.lines].
    destruct (Ascii.eqb c Text.newline); [by rewrite IH |].
    rewrite IH. pose proof (lines_nonempty a) as Hne.
    destruct (Text.lines a); [congruence | reflexivity].
Qed.

Lemma strip_prefix_app (p s : string) :
  Text.strip_prefix p (p +:+ s) = Some s.
Proof.
  induction p as [| c p IH].
  - by destruct s.
  - rewrite append_cons. cbn [Text.strip_prefix].
    by rewrite Ascii.eqb_refl.
Qed.

Lemma name_char_plain (c : ascii) :
  Dotenv.name_char c = true ->
  Ascii.eqb c "="%char = false
  /\ Ascii.eqb c Text.newline = false
  /\ Ascii.eqb c "#"%char = false.
Proof.
  destruct c as [[] [] [] [] [] [] [] []]; intros Hc;
    try discriminate Hc; repeat split; reflexivity.
Qed.

Lemma split_eq_name (name v : string) :
  Dotenv.all_chars Dotenv.name_char name = true ->
  Text.split_eq (name +:+ String "="%char v) = Some (name, v).
Proof.
  induction name as [| c name IH]; [reflexivity |].
  rewrite append_cons. cbn [Dotenv.all_chars Text.split_eq].
  intros [Hc Hn]%andb_true_iff.
  destruct (name_char_plain c Hc) as (-> & _ & _).
  by rewrite (IH Hn).
Qed.

Lemma parse_line_entry (name v : string) :
  Dotenv.valid_name name = true ->
  Dotenv.parse_line (name +:+ String "="%char v) = Some (name, v).
Proof.
  destruct name as [| c name]; [discriminate |].
  intros Hv. unfold Dotenv.valid_name in Hv.
  unfold Dotenv.parse_line.
  rewrite (split_eq_name _ v Hv).
  cbn [Dotenv.all_chars] in Hv. apply andb_true_iff in Hv as [Hc _].
  destruct (name_char_plain c Hc) as (_ & _ & Hhash).
  change ((String c name +:+ String "="%char v))
    with (String c (name +:+ String "="%char v)).
  destruct (Ascii.eqb_spec c "#"%char) as [-> | Hne]; [discriminate |].
  destruct c as [[] [] [] [] [] [] [] []]; try reflexivity.
  congruence.
Qed.

Lemma name_no_newline (name : string) :
  Dotenv.all_chars Dotenv.name_char name = true ->
  Dotenv.all_chars not_newline name = true.
Proof.
  induction name as [| c name IH]; cbn; [reflexivity |].
  intros [Hc Hn]%andb_true_iff. rewrite (IH Hn), andb_true_r.
  unfold not_newline.
  by destruct (name_char_plain c Hc) as (_ & -> & _).
Qed.

End Texts.

(** ** JSON text of bytes *)

Section JsonBytes.

Import Json.

Lemma run_dec_comma (b : byte) (acc : list Z) (rest : string) :
  run PValue acc (dec_of_byte b +:+ String ","%char rest)
  = run PValue (byte_value b :: acc) rest
  /\ run POpen acc (dec_of_byte b +:+ String ","%char rest)
     = run PValue (byte_value b :: acc) rest.
Proof. destruct b; split; reflexivity. Qed.

Lemma run_dec_close (b : byte) (acc : list Z) :
  run PValue acc (dec_of_byte b +:+ "]") = Some (rev (byte_value b :: acc))
  /\ run POpen acc (dec_of_byte b +:+ "]")
     = Some (rev (byte_value b :: acc)).
Proof. destruct b; split; reflexivity. Qed.

Lemma run_join (bs : list byte) : forall (b : byte) (acc : list Z),
  run PValue acc (join_bytes (b :: bs) +:+ "]")
  = Some (rev acc ++ map byte_value (b :: bs))%list
  /\ run POpen acc (join_bytes (b :: bs) +:+ "]")
     = Some (rev acc ++ map byte_value (b :: bs))%list.
Proof.
  induction bs as [| b' bs IH]; intros b acc.
  - cbn [join_bytes map]. destruct (run_dec_close b acc) as [-> ->].
    cbn [rev]. auto.
  - change (join_bytes (b :: b' :: bs))
      with (dec_of_byte b +:+ String ","%char (join_bytes (b' :: bs))).
    rewrite append_assoc.
    change (String ","%char (join_bytes (b' :: bs)) +:+ "]")
      with (String ","%char (join_bytes (b' :: bs) +:+ "]")).
    destruct (run_dec_comma b acc (join_bytes (b' :: bs) +:+ "]"))
      as [-> ->].
    destruct (IH b' (byte_value b :: acc)) as [-> _].
    cbn [rev map]. rewrite <- app_assoc. auto.
Qed.

Lemma byte_of_Z_value (b : byte) : byte_of_Z (byte_value b) = b.
Proof. destruct b; reflexivity. Qed.

(** Reading back the JSON text of a byte array gives the bytes. *)
Lemma parse_stringify_bytes (bs : list byte) :
  parse_bytes (stringify_bytes bs) = Some bs.
Proof.
  unfold parse_bytes, parse_int_array, stringify_bytes.
  destruct bs as [| b bs].
  - reflexivity.
  - change (run PStart [] (String "["%char (join_bytes (b :: bs) +:+ "]")))
      with (run POpen [] (join_bytes (b :: bs) +:+ "]")).
    destruct (run_join bs b []) as [_ ->].
    cbn [rev app fmap option_fmap option_map]. f_equal.
    unfold Uint8Array_from. rewrite map_map.
    rewrite <- (map_id (b :: bs)) at 2.
    apply map_ext. intros x. apply byte_of_Z_value.
Qed.

(** A text [JSON.parse] reads as an array is not Base58: it contains a
    bracket, and nothing before it but white space. *)
Lemma run_start_not_base58 (s : string) (acc : list Z) (r : list Z) :
  run PStart acc s = Some r -> Base58.digits_of s = None.
Proof.
  induction s as [| c s IH]; cbn [run]; [discriminate |].
  unfold step.
  destruct (is_space c) eqn:Hsp.
  - intros Hrun. cbn [Base58.digits_of].
    rewrite (IH Hrun). by destruct (Base58.digit_of_char c).
  - destruct (Ascii.eqb_spec c "["%char) as [-> | _]; [| discriminate].
    intros _. reflexivity.
Qed.

Lemma parse_bytes_not_base58 (s : string) (bs : list byte) :
  parse_bytes s = Some bs -> Base58.decode s = None.
Proof.
  unfold parse_bytes, parse_int_array.
  destruct (run PStart [] s) as [zs |] eqn:Hrun; [| discriminate].
  intros _. unfold Base58.decode.
  by rewrite (run_start_not_base58 _ _ _ Hrun).
Qed.

End JsonBytes.

(** ** Loading a key pair from the environment *)

Section Loader.

Import Keypair.

Context `{Platform}.

Lemma fromSecretKey_Ok (sk : list byte) (kp : Keypair) :
  fromSecretKey sk = Ok kp -> kp = mkKeypair (slice 32 64 sk) sk.
Proof.
  unfold fromSecretKey.
  destruct (negb _); [discriminate |].
  destruct (forallb _ _); [| discriminate].
  by intros [= <-].
Qed.

Lemma fromSecretKey_Err (sk : list byte) (e : error) :
  fromSecretKey sk = Err e ->
  e = BadSecretKeySize \/ e = ProvidedSecretKeyInvalid.
Proof.
  unfold fromSecretKey.
  destruct (negb _); [intros [= <-]; auto |].
  destruct (forallb _ _); [discriminate | intros [= <-]; auto].
Qed.

Lemma fromSecretKey_empty : fromSecretKey [] = Err BadSecretKeySize.
Proof. reflexivity. Qed.

(** A Base58 text of a key pair is not the empty text. *)
Lemma base58_encodes_nonempty (value : string) (kp : Keypair) :
  base58_encodes value kp -> truthy (Some value) = true.
Proof.
  destruct value as [| c value]; [| reflexivity].
  intros (sk & Hd & Hk).
  cbn in Hd. injection Hd as <-. rewrite fromSecretKey_empty in Hk.
  discriminate.
Qed.

Lemma loader_not_set (env : gmap string string) (variableName : string) :
  truthy (env !! variableName) = false ->
  getKeypairFromEnvironment env variableName = Err (PleaseSet variableName).
Proof. intros Hf. unfold getKeypairFromEnvironment. by rewrite Hf. Qed.

Lemma loader_base58 (env : gmap string string) (variableName value : string)
    (kp : Keypair) :
  env !! variableName = Some value ->
  base58_encodes value kp ->
  getKeypairFromEnvironment env variableName = Ok kp.
Proof.
  intros Hv Henc.
  pose proof (base58_encodes_nonempty value kp Henc) as Ht.
  destruct Henc as (sk & Hd & Hk).
  unfold getKeypairFromEnvironment. rewrite Hv, Ht. cbn [negb default from_option id].
  unfold base58_decode. rewrite Hd, Hk. reflexivity.
Qed.

End Loader.

(** ** The loader, whatever the runtime reads as JSON *)

Section AnyReader.

Import Keypair.

Context `{Platform}.

Variable reader : string -> option (list byte).

(** The loader of [Keypair] is the loader of [Reader] at the reader of
    integer arrays. *)
Lemma getKeypairFromEnvironment_at_parse_bytes
    (env : gmap string string) (variableName : string) :
  getKeypairFromEnvironment env variableName
  = Reader.getKeypairFromEnvironment Json.parse_bytes env variableName.
Proof. reflexivity. Qed.

(** The empty text is the Base58 text of no byte, so no encoding of a key. *)
Lemma valid_encoding_nonempty (value : string) (kp : Keypair) :
  Reader.valid_encoding reader value kp -> truthy (Some value) = true.
Proof.
  destruct value as [| c value]; [| reflexivity].
  intros [Hb | (Hd & _)].
  - exact (base58_encodes_nonempty _ _ Hb).
  - discriminate Hd.
Qed.

Lemma reader_not_set (env : gmap string string) (variableName : string) :
  truthy (env !! variableName) = false ->
  Reader.getKeypairFromEnvironment reader env variableName
  = Err (PleaseSet variableName).
Proof. intros Hf. unfold Reader.getKeypairFromEnvironment. by rewrite Hf. Qed.

(** What the loader does with a value that is set and not empty: the Base58
    reading decides when there is one, the JSON reading otherwise. *)
Lemma reader_set (env : gmap string string) (variableName value : string) :
  env !! variableName = Some value ->
  truthy (Some value) = true ->
  Reader.getKeypairFromEnvironment reader env variableName
  = match Base58.decode value with
    | Some sk =>
        match fromSecretKey sk with
        | Ok kp => Ok kp
        | Err _ => Err (InvalidSecretKey variableName)
        end
    | None =>
        match reader value with
        | Some sk => fromSecretKey sk
        | None => Err (InvalidSecretKey variableName)
        end
    end.
Proof.
  intros Hv Ht.
  unfold Reader.getKeypairFromEnvironment. rewrite Hv, Ht.
  cbn [negb default from_option id]. unfold base58_decode.
  destruct (Base58.decode value) as [sk |] eqn:Hd.
  - destruct (fromSecretKey sk) as [kp | e] eqn:Hk; [reflexivity |].
    by destruct (fromSecretKey_Err _ _ Hk) as [-> | ->].
  - reflexivity.
Qed.

(** A text of integers that the runtime reads as [Json.parse_bytes] does,
    and whose bytes are a key pair, is a JSON encoding of it. *)
Lemma json_array_encodes (value : string) (sk : list byte) (kp : Keypair) :
  Json.parse_bytes value = Some sk ->
  reader value = Some sk ->
  fromSecretKey sk = Ok kp ->
  Reader.json_encodes reader value kp.
Proof.
  intros Hp Hr Hk. split; [exact (parse_bytes_not_base58 _ _ Hp) |].
  by exists sk.
Qed.

(** C5, as the code has it, for every JSON reader. A value in the compact
    Base58 encoding, or a value that is no Base58 text and that
    [Uint8Array.from(JSON.parse(value))] reads as the bytes of a key pair,
    loads as that key pair; a variable that is absent or set to the empty
    text fails with the configuration error; any other value fails with a
    malformed-secret error. The function is one pass over one read of the
    variable: each failure is its result. *)
Theorem getKeypairFromEnvironment_outcomes
    (env : gmap string string) (variableName : string) :
  (forall value kp, env !! variableName = Some value ->
     Reader.valid_encoding reader value kp ->
     Reader.getKeypairFromEnvironment reader env variableName = Ok kp)
  /\ (truthy (env !! variableName) = false ->
      Reader.getKeypairFromEnvironment reader env variableName
      = Err (PleaseSet variableName))
  /\ (forall value, env !! variableName = Some value ->
      truthy (Some value) = true ->
      (forall kp, ~ Reader.valid_encoding reader value kp) ->
      exists e, Reader.getKeypairFromEnvironment reader env variableName
                = Err e
                /\ malformed_secret_error variableName e = true).
Proof.
  assert (Hself : malformed_secret_error variableName
                    (InvalidSecretKey variableName) = true).
  { cbn. apply String.eqb_refl. }
  split; [| split].
  - intros value kp Hv Henc.
    rewrite (reader_set _ _ _ Hv (valid_encoding_nonempty _ _ Henc)).
    destruct Henc as [(sk & Hd & Hk) | (Hd & sk & Hr & Hk)].
    + by rewrite Hd, Hk.
    + by rewrite Hd, Hr.
  - apply reader_not_set.
  - intros value Hv Ht Hbad. rewrite (reader_set _ _ _ Hv Ht).
    destruct (Base58.decode value) as [sk |] eqn:Hd.
    + destruct (fromSecretKey sk) as [kp | e] eqn:Hk.
      * exfalso. apply (Hbad kp). left. by exists sk.
      * by eexists.
    + destruct (reader value) as [sk |] eqn:Hr.
      * destruct (fromSecretKey sk) as [kp | e] eqn:Hk.
        -- exfalso. apply (Hbad kp). right. split; [exact Hd |]. by exists sk.
        -- exists e. split; [reflexivity |].
           by destruct (fromSecretKey_Err _ _ Hk) as [-> | ->].
      * by eexists.
Qed.

End AnyReader.

Lemma loader_contract_absent_only_fails_on_empty :
  ~ exists reader : string -> option (list byte),
      @Reader.loader_contract_absent_only test_platform reader
        {[ "SECRET_KEY" := EmptyString ]} "SECRET_KEY".
Proof.
  intros (reader & _ & _ & Hbad).
  destruct (Hbad EmptyString) as (e & He & Hm).
  - apply lookup_singleton_eq.
  - intros kp Hv.
    pose proof (@valid_encoding_nonempty test_platform reader _ _ Hv).
    discriminate.
  - rewrite (@reader_not_set test_platform) in He.
    + injection He as <-. discriminate.
    + by rewrite lookup_singleton_eq.
Qed.

Lemma getKeypairFromEnvironment_outcomes_witness :
  @Reader.getKeypairFromEnvironment test_platform Json.parse_bytes
    {[ "SECRET_KEY" := Json.stringify_bytes test_secretKey ]} "SECRET_KEY"
  = Ok test_keypair.
Proof.
  apply (proj1 (@getKeypairFromEnvironment_outcomes test_platform
                  Json.parse_bytes
                  {[ "SECRET_KEY" := Json.stringify_bytes test_secretKey ]}
                  "SECRET_KEY")
           (Json.stringify_bytes test_secretKey) test_keypair).
  - apply lookup_singleton_eq.
  - right. apply (@json_array_encodes test_platform _ _ test_secretKey);
      vm_compute; reflexivity.
Defined.

(** A Base58 value loads as well: the text of 64 bytes whose halves match. *)
Example loader_accepts_base58 :
  @Keypair.getKeypairFromEnvironment test_platform
    {[ "SECRET_KEY" := Base58.encode test_secretKey ]} "SECRET_KEY"
  = Ok test_keypair.
Proof.
  apply (@loader_base58 test_platform _ _ (Base58.encode test_secretKey)).
  - apply lookup_singleton_eq.
  - exists test_secretKey. split; vm_compute; reflexivity.
Qed.

(** A JSON array that is not a key pair fails with the error of the SDK. *)
Example loader_rejects_short_array :
  @Keypair.getKeypairFromEnvironment test_platform
    {[ "SECRET_KEY" := "[1,2,3]" ]} "SECRET_KEY"
  = Err BadSecretKeySize.
Proof.
  unfold Keypair.getKeypairFromEnvironment. rewrite lookup_singleton_eq.
  vm_compute. reflexivity.
Qed.

(** ** Writing a key pair to an env file *)

Section EnvFile.

Import Keypair.

Lemma dec_of_byte_one_line (b : byte) :
  Dotenv.all_chars not_newline (Json.dec_of_byte b) = true.
Proof. destruct b; reflexivity. Qed.

Lemma join_bytes_one_line (bs : list byte) :
  Dotenv.all_chars not_newline (Json.join_bytes bs) = true.
Proof.
  induction bs as [| b bs IH]; [reflexivity |].
  destruct bs as [| b' bs]; [apply dec_of_byte_one_line |].
  change (Json.join_bytes (b :: b' :: bs))
    with (Json.dec_of_byte b +:+ String ","%char (Json.join_bytes (b' :: bs))).
  rewrite all_chars_app, dec_of_byte_one_line.
  cbn [Dotenv.all_chars andb]. by rewrite IH.
Qed.

Lemma stringify_bytes_one_line (bs : list byte) :
  Dotenv.all_chars not_newline (Json.stringify_bytes bs) = true.
Proof.
  unfold Json.stringify_bytes. cbn [Dotenv.all_chars].
  rewrite all_chars_app, join_bytes_one_line. reflexivity.
Qed.

Lemma get_all_chars (p : ascii -> bool) (s : string) :
  Dotenv.all_chars p s = true ->
  forall n c, String.get n s = Some c -> p c = true.
Proof.
  induction s as [| x s IH]; intros Hall n c; [by destruct n |].
  cbn in Hall. apply andb_true_iff in Hall as [Hx Hs].
  destruct n as [| n]; cbn; [by intros [= <-] | by apply IH].
Qed.

Lemma char_of_digit_not_newline (d : N) :
  not_newline (Base58.char_of_digit d) = true.
Proof.
  unfold Base58.char_of_digit.
  destruct (String.get (N.to_nat d) Base58.ALPHABET) as [c |] eqn:Hg;
    [| reflexivity].
  by apply (get_all_chars not_newline Base58.ALPHABET eq_refl _ _ Hg).
Qed.

Lemma encode_one_line (bs : list byte) :
  Dotenv.all_chars not_newline (Base58.encode bs) = true.
Proof.
  unfold Base58.encode.
  generalize (replicate (Base58.leading_zeros (map Byte.to_N bs)) 0%N ++
              Base58.digits_be 58 (Base58.value_of 256 (map Byte.to_N bs)))%list.
  intros ds. induction ds as [| d ds IH]; [reflexivity |].
  cbn [map string_of_list_ascii Dotenv.all_chars].
  by rewrite char_of_digit_not_newline, IH.
Qed.

Lemma env_record_lines (addr variableName secretKeyString : string) :
  env_record addr variableName secretKeyString
  = String Text.newline
      (comment_line addr +:+
       String Text.newline (entry_line variableName secretKeyString)).
Proof.
  unfold env_record, comment_line, entry_line.
  by rewrite append_assoc.
Qed.

Lemma lines_with_record (src addr variableName secretKeyString : string) :
  Dotenv.all_chars not_newline addr = true ->
  Dotenv.all_chars not_newline variableName = true ->
  Dotenv.all_chars not_newline secretKeyString = true ->
  Text.lines (src +:+ env_record addr variableName secretKeyString)
  = (Text.lines src
       ++ [comment_line addr; entry_line variableName secretKeyString])%list.
Proof.
  intros Ha Hn Hs.
  rewrite env_record_lines, !lines_app.
  rewrite (lines_single (comment_line addr)).
  2:{ unfold comment_line. by rewrite all_chars_app, Ha. }
  rewrite (lines_single (entry_line variableName secretKeyString)).
  2:{ unfold entry_line. rewrite all_chars_app, Hn.
      cbn [Dotenv.all_chars andb]. by rewrite Hs. }
  reflexivity.
Qed.

Lemma parse_line_comment (addr : string) :
  Dotenv.parse_line (comment_line addr) = None.
Proof. reflexivity. Qed.

Lemma parse_with_record (src addr variableName secretKeyString : string) :
  Dotenv.all_chars not_newline addr = true ->
  Dotenv.valid_name variableName = true ->
  Dotenv.all_chars not_newline secretKeyString = true ->
  Dotenv.parse (src +:+ env_record addr variableName secretKeyString)
    !! variableName = Some secretKeyString.
Proof.
  intros Ha Hn Hs.
  assert (Hn' : Dotenv.all_chars Dotenv.name_char variableName = true).
  { by destruct variableName. }
  unfold Dotenv.parse.
  rewrite lines_with_record by auto using name_no_newline.
  rewrite foldl_app. cbn [foldl].
  rewrite parse_line_comment.
  unfold entry_line. rewrite (parse_line_entry _ _ Hn).
  apply lookup_insert_eq.
Qed.

Lemma recorded_address_in_record (variableName addr secretKeyString : string)
    (ls : list string) : forall found,
  Dotenv.valid_name variableName = true ->
  recorded_address_in variableName
    (ls ++ [comment_line addr; entry_line variableName secretKeyString])
    found
  = Some addr.
Proof.
  intros found Hn. revert found.
  induction ls as [| l ls IH]; intros found.
  - cbn [app recorded_address_in].
    unfold entry_line. rewrite (parse_line_entry _ _ Hn).
    rewrite String.eqb_refl.
    unfold comment_line. by rewrite strip_prefix_app.
  - cbn [app recorded_address_in].
    destruct (ls ++ [comment_line addr;
                     entry_line variableName secretKeyString])%list
      as [| entry rest] eqn:Hrest.
    + by destruct ls.
    + rewrite ?Hrest. apply IH.
Qed.

Lemma recorded_address_with_record
    (src addr variableName secretKeyString : string) :
  Dotenv.all_chars not_newline addr = true ->
  Dotenv.valid_name variableName = true ->
  Dotenv.all_chars not_newline secretKeyString = true ->
  recorded_address (src +:+ env_record addr variableName secretKeyString)
    variableName = Some addr.
Proof.
  intros Ha Hn Hs.
  assert (Hn' : Dotenv.all_chars Dotenv.name_char variableName = true).
  { by destruct variableName. }
  unfold recorded_address.
  rewrite lines_with_record by auto using name_no_newline.
  by apply recorded_address_in_record.
Qed.

End EnvFile.

Section Persistence.

Import Keypair.

Context `{Platform}.

(** The guard of [addKeypairToEnvFile] reads the process environment: a
    variable set there to a non-empty text is a conflict, and the files are
    left as they were. *)
Lemma addKeypairToEnvFile_conflict (env fs : gmap string string)
    (kp : Keypair) (variableName : string) (envFileName : option string) :
  truthy (env !! variableName) = true ->
  addKeypairToEnvFile env fs kp variableName envFileName
  = (Err (AlreadyExists variableName), fs).
Proof. intros Ht. unfold addKeypairToEnvFile. by rewrite Ht. Qed.

(** Otherwise the record is appended, whatever the file holds. *)
Lemma addKeypairToEnvFile_appends (env fs : gmap string string)
    (kp : Keypair) (variableName : string) (envFileName : option string) :
  truthy (env !! variableName) = false ->
  addKeypairToEnvFile env fs kp variableName envFileName
  = (Ok tt,
     appendFile fs (target_file envFileName)
       (env_record (toBase58 (publicKey kp)) variableName
          (keypairToSecretKeyJSON kp))).
Proof. intros Ht. unfold addKeypairToEnvFile. by rewrite Ht. Qed.

(** A variable holding the JSON text of some bytes loads as the key pair of
    those bytes. *)
Lemma loader_stringified (env : gmap string string) (variableName : string)
    (bs : list byte) :
  env !! variableName = Some (Json.stringify_bytes bs) ->
  getKeypairFromEnvironment env variableName = fromSecretKey bs.
Proof.
  intros Hv. unfold getKeypairFromEnvironment. rewrite Hv.
  change (truthy (Some (Json.stringify_bytes bs))) with true.
  cbn [negb default from_option id].
  unfold base58_decode.
  rewrite (parse_bytes_not_base58 _ _ (parse_stringify_bytes bs)).
  change (includes "Non-base58 character" (message NonBase58Character))
    with true.
  cbn [negb]. by rewrite parse_stringify_bytes.
Qed.

(** C6. A key pair written by [addKeypairToEnvFile] and loaded back, after
    the file has been read into the environment, by
    [getKeypairFromEnvironment] under the same name has the address that
    the comment line of the record carries; and when the name is not yet
    in the environment, writing and loading back both succeed and give the
    key pair that was written. *)
Theorem persisted_keypair_reloads_with_recorded_address
    (env fs : gmap string string) (kp : Keypair) (variableName : string)
    (envFileName : option string) :
  consistent kp ->
  Dotenv.valid_name variableName = true ->
  let (r, fs') := addKeypairToEnvFile env fs kp variableName envFileName in
  let path := target_file envFileName in
  let env' := Dotenv.config fs' path env in
  (forall kp', r = Ok tt ->
     getKeypairFromEnvironment env' variableName = Ok kp' ->
     recorded_address (default EmptyString (fs' !! path)) variableName
     = Some (toBase58 (publicKey kp')))
  /\ (env !! variableName = None ->
      fromSecretKey (secretKey kp) = Ok kp ->
      r = Ok tt /\ getKeypairFromEnvironment env' variableName = Ok kp).
Proof.
  intros Hc Hn.
  destruct (truthy (env !! variableName)) eqn:Ht.
  - rewrite (addKeypairToEnvFile_conflict _ _ _ _ _ Ht). cbn zeta.
    split; [intros kp' [=] |].
    intros Hnone. rewrite Hnone in Ht. discriminate.
  - rewrite (addKeypairToEnvFile_appends _ _ _ _ _ Ht). cbn zeta.
    set (path := target_file envFileName).
    set (src := default EmptyString (fs !! path)).
    set (record := env_record (toBase58 (publicKey kp)) variableName
                     (keypairToSecretKeyJSON kp)).
    assert (Hfile : appendFile fs path record !! path
                    = Some (src +:+ record)).
    { unfold appendFile. apply lookup_insert_eq. }
    assert (Hparse : Dotenv.parse (src +:+ record) !! variableName
                     = Some (keypairToSecretKeyJSON kp)).
    { apply parse_with_record;
        [apply encode_one_line | exact Hn | apply stringify_bytes_one_line]. }
    assert (Hload : env !! variableName = None ->
              getKeypairFromEnvironment
                (Dotenv.config (appendFile fs path record) path env)
                variableName
              = fromSecretKey (secretKey kp)).
    { intros Hnone. apply loader_stringified.
      unfold Dotenv.config. rewrite Hfile.
      rewrite lookup_union_r by exact Hnone. exact Hparse. }
    split.
    + intros kp' _ Hget. rewrite Hfile. cbn [default from_option id].
      destruct (env !! variableName) as [old |] eqn:Hold.
      * exfalso. destruct old; [| discriminate].
        rewrite loader_not_set in Hget; [discriminate |].
        unfold Dotenv.config. rewrite Hfile.
        by rewrite (lookup_union_l' env _ variableName), Hold.
      * rewrite (Hload eq_refl) in Hget.
        apply fromSecretKey_Ok in Hget as ->. cbn [publicKey].
        rewrite <- Hc.
        apply recorded_address_with_record;
          [apply encode_one_line | exact Hn | apply stringify_bytes_one_line].
    + intros Hnone Hk. split; [reflexivity |].
      by rewrite (Hload Hnone).
Qed.

End Persistence.

Lemma persisted_keypair_reloads_with_recorded_address_witness :
  let (r, fs') :=
    Keypair.addKeypairToEnvFile ∅ ∅ test_keypair "SECRET_KEY" None in
  let path := Keypair.target_file None in
  let env' := Dotenv.config fs' path ∅ in
  (forall kp', r = Ok tt ->
     @Keypair.getKeypairFromEnvironment test_platform env' "SECRET_KEY"
     = Ok kp' ->
     Keypair.recorded_address (default EmptyString (fs' !! path)) "SECRET_KEY"
     = Some (Keypair.toBase58 (Keypair.publicKey kp')))
  /\ ((∅ : gmap string string) !! "SECRET_KEY" = None ->
      @Keypair.fromSecretKey test_platform (Keypair.secretKey test_keypair)
      = Ok test_keypair ->
      r = Ok tt
      /\ @Keypair.getKeypairFromEnvironment test_platform env' "SECRET_KEY"
         = Ok test_keypair).
Proof.
  apply (@persisted_keypair_reloads_with_recorded_address test_platform
           ∅ ∅ test_keypair "SECRET_KEY" None).
  - vm_compute. reflexivity.
  - vm_compute. reflexivity.
Defined.

(** C3, on the code. [addKeypairToEnvFile] is called twice with the same
    name and the environment is not reloaded in between: the second call
    finds the name in the file's own text, yet it does not fail, and it
    appends a second record. *)
Theorem addKeypairToEnvFile_duplicates_existing_name :
  let (r1, fs1) :=
    Keypair.addKeypairToEnvFile ∅ ∅ test_keypair "SECRET_KEY" None in
  let (r2, fs2) :=
    Keypair.addKeypairToEnvFile ∅ fs1 test_keypair "SECRET_KEY" None in
  r1 = Ok tt
  /\ is_Some (Dotenv.parse (default EmptyString (fs1 !! ".env"))
                !! "SECRET_KEY")
  /\ r2 = Ok tt
  /\ fs2 !! ".env"
     = Some (default EmptyString (fs1 !! ".env")
             +:+ Keypair.env_record
                   (Keypair.toBase58 (Keypair.publicKey test_keypair))
                   "SECRET_KEY" (Keypair.keypairToSecretKeyJSON test_keypair))
  /\ fs2 <> fs1.
Proof.
  rewrite addKeypairToEnvFile_appends by (by rewrite lookup_empty).
  rewrite addKeypairToEnvFile_appends by (by rewrite lookup_empty).
  set (record := Keypair.env_record _ _ _).
  set (fs1 := appendFile ∅ (Keypair.target_file None) record).
  change (Keypair.target_file None) with ".env" in *.
  assert (H1 : fs1 !! ".env" = Some (EmptyString +:+ record)).
  { unfold fs1, appendFile. rewrite lookup_insert_eq, lookup_empty.
    reflexivity. }
  rewrite H1. cbn [default from_option id].
  split; [reflexivity |]. split; [| split; [reflexivity | split]].
  - pose proof (parse_with_record EmptyString
                  (Keypair.toBase58 (Keypair.publicKey test_keypair))
                  "SECRET_KEY" (Keypair.keypairToSecretKeyJSON test_keypair)
                  (encode_one_line _) eq_refl (stringify_bytes_one_line _))
      as Hparse.
    fold record in Hparse. rewrite Hparse. by eexists.
  - unfold appendFile at 1. rewrite lookup_insert_eq, H1.
    cbn [default from_option id]. reflexivity.
  - intros Heq.
    apply (f_equal (fun m => String.length (default EmptyString (m !! ".env"))))
      in Heq.
    unfold appendFile at 1 in Heq.
    rewrite lookup_insert_eq, H1 in Heq. cbn [default from_option id] in Heq.
    rewrite append_nil, append_length in Heq.
    unfold record in Heq. rewrite env_record_lines in Heq.
    cbn [String.length] in Heq. lia.
Qed.

(** ** createWallet *)

Section CreateWallet.

Import Wallet.

Context `{Platform}.

(** [createWallet] is: make the signer, then fund it. *)
Lemma createWalletFactory_eq
    (airdropIfRequired : string -> N -> N -> M World N)
    (fuel : nat) (options : Options) (w : World) :
  createWalletFactory airdropIfRequired fuel options w
  = (newSigner fuel options
       ≫= fund airdropIfRequired (effective_amount options)) w.
Proof. reflexivity. Qed.

Lemma createWalletFactory_after_signer
    (airdropIfRequired : string -> N -> N -> M World N)
    (fuel : nat) (options : Options) (w w1 : World) (s : KeyPairSigner) :
  newSigner fuel options w = (Ok s, w1) ->
  createWalletFactory airdropIfRequired fuel options w
  = fund airdropIfRequired (effective_amount options) s w1.
Proof. intros Hs. rewrite createWalletFactory_eq, run_bind. by rewrite Hs. Qed.

(** What a finished search of the grinder has done. *)
Lemma grindKeyPair_spec (fuel : nat) (o : GrindOptions) :
  forall (w w1 : World) (k : CryptoKeyPair),
  grindKeyPair fuel o w = (Ok k, w1) ->
  env w1 = env w /\ files w1 = files w /\ net w1 = net w
  /\ (exists older, keys w1 = (older ++ [k])%list /\ keyId k = length older)
  /\ extractable k
     = bool_decide
         (isPrivateKeyExtractable o = Some EXTRACTABLE_ACKNOWLEDGEMENT)
  /\ (exists i, keyBytes k
                = (randomSeed i ++ getPublicKey (randomSeed i))%list)
  /\ grind_matches o (address_of (keyBytes k)) = true.
Proof.
  induction fuel as [| fuel IH]; intros w w1 k; [discriminate |].
  cbn [grindKeyPair]. rewrite run_bind.
  unfold generateKeyPair at 1. cbn beta iota zeta.
  match goal with
  | |- (if grind_matches o ?a then _ else _) ?w' = _ -> _ =>
      destruct (grind_matches o a) eqn:Hm; set (w0 := w')
  end.
  - intros [= <- <-]. cbn.
    split; [reflexivity |]. split; [reflexivity |]. split; [reflexivity |].
    split; [by exists (keys w) |]. split; [reflexivity |].
    split; [by exists (generated w) | exact Hm].
  - intros Hrec. destruct (IH _ _ _ Hrec) as (He & Hf & Hn & Hk & Hrest).
    split; [exact He |]. split; [exact Hf |]. split; [exact Hn |].
    split; [exact Hk | exact Hrest].
Qed.

(** A call that requests persistence writes to [target_file]. *)
Lemma persistence_file (options : Options) :
  requests_persistence options = true ->
  or_default
    (if truthy (envVariableName options)
        && negb (truthy_string (envFileName options))
     then Value ".env" else envFileName options) Null
  = Value (target_file options)
  /\ exists c rest, target_file options = String c rest.
Proof.
  unfold requests_persistence, target_file.
  destruct (envFileName options) as [| | [| c rest]];
    destruct (truthy (envVariableName options)); cbn;
    try discriminate; eauto.
Qed.

(** A generated key pair passes the check of [fromSecretKey]. *)
Lemma fromSecretKey_generated (seed : list byte) :
  Platform_ok -> length seed = 32 ->
  Keypair.fromSecretKey (seed ++ getPublicKey seed)%list
  = Ok (Keypair.mkKeypair (getPublicKey seed)
          (seed ++ getPublicKey seed)%list).
Proof.
  intros [Hpk _] Hseed. unfold Keypair.fromSecretKey.
  rewrite length_app, Hseed, Hpk. cbn [Nat.add Nat.eqb negb].
  unfold slice. cbn [Nat.sub drop].
  rewrite (drop_app_length' seed (getPublicKey seed) 32 (eq_sym Hseed)).
  change (drop 0 (seed ++ getPublicKey seed)%list)
    with (seed ++ getPublicKey seed)%list.
  rewrite (take_app_length' seed (getPublicKey seed) 32 (eq_sym Hseed)).
  rewrite (take_ge (getPublicKey seed) 32) by (rewrite Hpk; lia).
  assert (Hall : forallb
            (fun ii => bool_decide
               (getPublicKey seed !! ii = getPublicKey seed !! ii))
            (seq 0 32) = true).
  { apply forallb_forall. intros ii _. by apply bool_decide_eq_true. }
  by rewrite Hall.
Qed.

(** The persistence branch, step by step: the temporary key pair is
    written as a record of the target file, the file is read into the
    environment, and the signer is made anew from the variable. *)
Lemma newSigner_persists (fuel : nat) (options : Options)
    (w w1 : World) (temp : CryptoKeyPair) :
  Platform_ok ->
  requests_persistence options = true ->
  Dotenv.valid_name (target_variable options) = true ->
  env w !! target_variable options = None ->
  Dotenv.parse (default EmptyString (files w !! target_file options))
    !! target_variable options = None ->
  grindKeyPair fuel (temporary_grind_options options) w = (Ok temp, w1) ->
  let record :=
    Keypair.env_record (address_of (keyBytes temp)) (target_variable options)
      (Json.stringify_bytes (keyBytes temp)) in
  let files' := appendFile (files w1) (target_file options) record in
  let loaded := mkCryptoKeyPair (length (keys w1)) (keyBytes temp) false in
  newSigner fuel options w
  = (Ok (mkKeyPairSigner (address_of (keyBytes temp)) loaded),
     mkWorld (Dotenv.config files' (target_file options) (env w1)) files'
       (keys w1 ++ [loaded])%list (generated w1) (net w1)).
Proof.
  intros Hok Hreq Hname Henv Hfile Hgrind.
  destruct (grindKeyPair_spec _ _ _ _ _ Hgrind)
    as (He & Hf & Hn & _ & Hext & (i & Hbytes) & _).
  cbn in Hext.
  destruct (persistence_file options Hreq) as (Htarget & c & rest & Hcr).
  unfold newSigner. cbn zeta. rewrite Htarget.
  fold (target_variable options) in *.
  fold (temporary_grind_options options).
  set (name := target_variable options) in *.
  rewrite Hcr in *. set (file := String c rest) in *.
  rewrite run_bind, Hgrind.
  rewrite run_bind. unfold createSignerFromKeyPair at 1. rewrite run_ret.
  rewrite run_bind. unfold addKeyPairSignerToEnvFile.
  cbn [address keyPair].
  rewrite Hf, Hfile, Hext.
  rewrite bool_decide_eq_false_2 by (intros [? [=]]).
  rewrite bool_decide_eq_true_2 by reflexivity.
  cbn [negb].
  rewrite run_bind. unfold dotenv_config at 1, modify.
  unfold loadWalletFromEnvironment.
  set (record := Keypair.env_record _ _ _).
  cbn [set_env set_files env files keys generated net].
  rewrite Hf, He.
  assert (Hlookup :
            Dotenv.config (appendFile (files w) file record) file (env w)
              !! name = Some (Json.stringify_bytes (keyBytes temp))).
  { unfold Dotenv.config, appendFile. rewrite lookup_insert_eq.
    rewrite lookup_union_r by exact Henv.
    apply parse_with_record;
      [apply encode_one_line | exact Hname | apply stringify_bytes_one_line]. }
  rewrite (loader_stringified _ _ _ Hlookup).
  rewrite Hbytes at 1.
  rewrite (fromSecretKey_generated _ Hok (proj2 Hok i)).
  rewrite run_bind. unfold createKeyPairFromBytes, createSignerFromKeyPair.
  cbn [Keypair.secretKey keyBytes env files keys generated net].
  rewrite run_ret. rewrite <- Hbytes.
  cbn [set_env set_files env files keys generated net].
  rewrite ?Hf, ?He. reflexivity.
Qed.




Lemma test_platform_ok : @Platform_ok test_platform.
Proof.
  split.
  - intros seed. cbn. unfold test_getPublicKey.
    rewrite length_take, length_app, length_map, length_replicate. lia.
  - intros i. unfold test_seed. cbn [randomSeed test_platform].
    apply length_replicate.
Qed.

End CreateWallet.



(** The same run, spelled out: the file records the address of the temporary
    key pair, the signer returned has another address. *)
Example createWallet_preset_run :
  exists s w3,
    @Wallet.createWalletFactory test_platform (@Sol.airdropIfRequired) 1
      persist_options preset_world = (Ok s, w3)
    /\ Keypair.recorded_address
         (default EmptyString (files w3 !! ".env")) "WALLET"
       = Some (Wallet.address_of (keyBytes test_temp))
    /\ address s = Keypair.toBase58 (Keypair.publicKey test_keypair)
    /\ address s <> Wallet.address_of (keyBytes test_temp).
Proof.
  eexists. eexists. split; [vm_compute; reflexivity |].
  split; [vm_compute; reflexivity |].
  split; [vm_compute; reflexivity |].
  vm_compute. discriminate.
Qed.

Section Funding.

Import Wallet.

Context `{Platform}.

Lemma fund_value (f : string -> N -> N -> M World N) (a : N)
    (s : KeyPairSigner) (w : World) :
  fund f (Value a) s w
  = if (a =? 0)%N then (Ok s, w)
    else (f (address s) a a ≫= fun _ => mret s) w.
Proof. unfold fund. by destruct (a =? 0)%N. Qed.

(** Funding a signer that holds nothing, with the [airdropIfRequired] of
    the repository. *)
Lemma fund_fresh (a : N) (s : KeyPairSigner) (w : World) :
  balance_of (net w) (address s) = 0%N ->
  a <> 0%N ->
  fund Sol.airdropIfRequired (Value a) s w
  = if faucetOpen (net w) then
      (Ok s,
       set_net (fun _ =>
         mkNetwork (<[address s := a]> (balances (net w)))
           (requests (net w) ++ [(address s, a)])%list true) w)
    else
      (Err (RpcError "airdrop failed"),
       set_net (fun _ =>
         mkNetwork (balances (net w))
           (requests (net w) ++ [(address s, a)])%list false) w).
Proof.
  intros Hzero Hne. rewrite fund_value.
  destruct (N.eqb_spec a 0) as [-> | _]; [congruence |].
  rewrite run_bind, airdropIfRequired_run_below by (rewrite Hzero; lia).
  rewrite Hzero, N.add_0_l.
  by destruct (faucetOpen (net w)).
Qed.

(** C4, as the code has it. A new wallet that holds nothing and is given a
    non-null amount: whenever [createWallet] returns, the balance of the
    wallet is exactly the amount, and it does return when the network
    grants the request. For a non-zero amount this is the work of one call
    of [airdropIfRequired] with the amount as the minimum balance; for the
    amount zero [airdropIfRequired] is not called. *)
Theorem createWallet_funds_exactly
    (fuel : nat) (options : Options) (w w1 : World) (s : KeyPairSigner)
    (a : N) :
  airdropAmount options = Value a ->
  newSigner fuel options w = (Ok s, w1) ->
  balance_of (net w1) (address s) = 0%N ->
  (forall s' w2,
     createWalletFactory Sol.airdropIfRequired fuel options w = (Ok s', w2) ->
     s' = s /\ balance_of (net w2) (address s) = a)
  /\ (faucetOpen (net w1) = true ->
      exists w2,
        createWalletFactory Sol.airdropIfRequired fuel options w = (Ok s, w2))
  /\ (a <> 0%N ->
      forall f, createWalletFactory f fuel options w
                = (f (address s) a a ≫= fun _ => mret s) w1)
  /\ (a = 0%N ->
      forall f, createWalletFactory f fuel options w = (Ok s, w1)).
Proof.
  intros Ha Hs Hzero.
  assert (Hrun : forall f, createWalletFactory f fuel options w
                           = fund f (Value a) s w1).
  { intros f. rewrite (createWalletFactory_after_signer _ _ _ _ _ _ Hs).
    unfold effective_amount. by rewrite Ha. }
  destruct (N.eqb_spec a 0) as [-> | Hne].
  - split; [| split; [| split]].
    + intros s' w2. rewrite Hrun, fund_value. cbn.
      intros [= <- <-]. auto.
    + intros _. exists w1. by rewrite Hrun.
    + congruence.
    + intros _ f. by rewrite Hrun.
  - split; [| split; [| split]].
    + intros s' w2. rewrite Hrun, (fund_fresh _ _ _ Hzero Hne).
      destruct (faucetOpen (net w1)); [| discriminate].
      intros [= <- <-]. split; [reflexivity |].
      unfold balance_of. cbn. by rewrite lookup_insert_eq.
    + intros Hopen. rewrite Hrun, (fund_fresh _ _ _ Hzero Hne), Hopen. eauto.
    + intros _ f. rewrite Hrun, fund_value.
      by destruct (N.eqb_spec a 0).
    + congruence.
Qed.

(** C9. A call that leaves [airdropAmount] out funds the new wallet with
    [DEFAULT_AIRDROP_AMOUNT]; and, whatever the options, a funding request
    is issued exactly when the amount is truthy: it is skipped for [null]
    and for zero, and only for them. *)
Theorem createWallet_default_amount_and_skips
    (fuel : nat) (options : Options) (w w1 : World) (s : KeyPairSigner) :
  newSigner fuel options w = (Ok s, w1) ->
  balance_of (net w1) (address s) = 0%N ->
  faucetOpen (net w1) = true ->
  let amount := effective_amount options in
  exists w2,
    createWalletFactory Sol.airdropIfRequired fuel options w = (Ok s, w2)
    /\ (airdropAmount options = Undefined ->
        amount = Value DEFAULT_AIRDROP_AMOUNT
        /\ balance_of (net w2) (address s) = DEFAULT_AIRDROP_AMOUNT
        /\ forall f, createWalletFactory f fuel options w
                     = fund f (Value DEFAULT_AIRDROP_AMOUNT) s w1)
    /\ (requests (net w2) = requests (net w1)
        <-> truthy_amount amount = false)
    /\ (truthy_amount amount = false
        <-> airdropAmount options = Null \/ amount = Value 0%N)
    /\ (forall a, amount = Value a -> a <> 0%N ->
        requests (net w2) = (requests (net w1) ++ [(address s, a)])%list).
Proof.
  intros Hs Hzero Hopen amount.
  assert (Hrun : forall f, createWalletFactory f fuel options w
                           = fund f amount s w1).
  { intros f. by apply createWalletFactory_after_signer. }
  assert (Hfalsy : truthy_amount amount = false
                   <-> airdropAmount options = Null \/ amount = Value 0%N).
  { unfold amount, effective_amount.
    destruct (airdropAmount options) as [| | a]; cbn.
    - destruct (N.eqb_spec DEFAULT_AIRDROP_AMOUNT 0) as [-> | Hne]; cbn.
      + tauto.
      + split; [discriminate | intros [[=] | [=]]; congruence].
    - tauto.
    - destruct (N.eqb_spec a 0) as [-> | Hne]; cbn.
      + tauto.
      + split; [discriminate | intros [[=] | [=]]; congruence]. }
  assert (Hsnoc : forall (l : list (string * N)) x, (l ++ [x])%list <> l).
  { intros l x Heq. apply (f_equal length) in Heq.
    rewrite length_app in Heq. cbn in Heq. lia. }
  destruct amount as [| | a] eqn:Hamount.
  - exfalso. unfold amount, effective_amount in Hamount.
    by destruct (airdropAmount options).
  - exists w1. rewrite Hrun. split; [reflexivity |].
    split; [| split; [| split]].
    + intros Hu. unfold amount, effective_amount in Hamount.
      rewrite Hu in Hamount. discriminate.
    + cbn. tauto.
    + exact Hfalsy.
    + discriminate.
  - destruct (N.eqb_spec a 0) as [-> | Hne].
    + exists w1. rewrite Hrun. split; [reflexivity |].
      split; [| split; [| split]].
      * intros Hu. unfold amount, effective_amount in Hamount.
        rewrite Hu in Hamount. cbn in Hamount. injection Hamount as Hd.
        rewrite Hd, Hzero. split; [reflexivity |]. split; [reflexivity |].
        intros f. by rewrite Hrun.
      * cbn. tauto.
      * exact Hfalsy.
      * intros a' [= <-]. congruence.
    + eexists. rewrite Hrun, (fund_fresh _ _ _ Hzero Hne), Hopen.
      split; [reflexivity |]. cbn [net set_net requests].
      split; [| split; [| split]].
      * intros Hu. unfold amount, effective_amount in Hamount.
        rewrite Hu in Hamount. cbn in Hamount. injection Hamount as Hd.
        rewrite Hd. split; [reflexivity |]. split.
        -- unfold balance_of. cbn. by rewrite lookup_insert_eq.
        -- intros f. by rewrite Hrun.
      * cbn. destruct (N.eqb_spec a 0); [congruence |]. cbn.
        split; [intros Heq; by apply Hsnoc in Heq | discriminate].
      * exact Hfalsy.
      * by intros a' [= <-] _.
Qed.

End Funding.

(** With the amount zero [airdropIfRequired] is not called: a probe in its
    place is never reached, and [createWallet] returns. *)
Lemma zero_amount_is_not_funded_by_invoking :
  ~ @Wallet.funds_by_invoking test_platform probe 1 zero_amount_options
      empty_world.
Proof.
  intros Hclaim.
  destruct (@Wallet.newSigner test_platform 1 zero_amount_options empty_world)
    as [[s | e] w1] eqn:Hnew.
  - specialize (Hclaim 0%N s w1 eq_refl Hnew).
    rewrite (@createWalletFactory_after_signer test_platform _ _ _ _ _ _ Hnew)
      in Hclaim.
    discriminate Hclaim.
  - vm_compute in Hnew. discriminate Hnew.
Qed.

Lemma createWallet_funds_exactly_witness :
  (forall s' w2,
     @Wallet.createWalletFactory test_platform Sol.airdropIfRequired 1
       funded_options empty_world = (Ok s', w2) ->
     s' = test_plain_signer
     /\ balance_of (net w2) (address test_plain_signer) = 5000%N)
  /\ exists w2,
       @Wallet.createWalletFactory test_platform Sol.airdropIfRequired 1
         funded_options empty_world = (Ok test_plain_signer, w2).
Proof.
  destruct (@createWallet_funds_exactly test_platform 1 funded_options
              empty_world test_plain_world test_plain_signer 5000%N)
    as (Hbalance & Hreturns & _).
  - reflexivity.
  - vm_compute. reflexivity.
  - vm_compute. reflexivity.
  - split; [exact Hbalance |]. apply Hreturns. reflexivity.
Defined.

Lemma createWallet_default_amount_and_skips_witness :
  exists w2,
    @Wallet.createWalletFactory test_platform Sol.airdropIfRequired 1
      default_options empty_world = (Ok test_plain_signer, w2)
    /\ balance_of (net w2) (address test_plain_signer) = 1000000000%N
    /\ requests (net w2)
       = [(address test_plain_signer, 1000000000%N)].
Proof.
  destruct (@createWallet_default_amount_and_skips test_platform 1
              default_options empty_world test_plain_world test_plain_signer)
    as (w2 & Hrun & Hdefault & _ & _ & Hrequest).
  - vm_compute. reflexivity.
  - vm_compute. reflexivity.
  - reflexivity.
  - exists w2. split; [exact Hrun |].
    split; [exact (proj1 (proj2 (Hdefault eq_refl))) |].
    apply (Hrequest 1000000000%N); [reflexivity | discriminate].
Defined.

(** A whole run of [createWallet] with persistence and the default amount:
    the address on the comment line of the file is the address of the
    returned signer, the signer is funded with the default amount, and of
    the two key pair objects made only the first, temporary one is
    extractable. *)
Example createWallet_persistence_run :
  let (r, w') :=
    @Wallet.createWalletFactory test_platform Sol.airdropIfRequired 1
      persist_options empty_world in
  exists s,
    r = Ok s
    /\ Keypair.recorded_address (default EmptyString (files w' !! ".env"))
         "WALLET" = Some (address s)
    /\ balance_of (net w') (address s) = 1000000000%N
    /\ requests (net w') = [(address s, 1000000000%N)]
    /\ map extractable (keys w') = [true; false]
    /\ keyPair s = mkCryptoKeyPair 1 (keyBytes test_temp) false.
Proof. vm_compute. eexists. repeat split. Qed.

(** A second call under the same name, after the first has put the name
    into the file: the persistence layer refuses, and nothing is written. *)
Example createWallet_conflict :
  let (r1, w1) :=
    @Wallet.createWalletFactory test_platform Sol.airdropIfRequired 1
      persist_options empty_world in
  let w1' := set_env (fun _ => ∅) w1 in
  let (r2, w2) :=
    @Wallet.createWalletFactory test_platform Sol.airdropIfRequired 1
      persist_options w1' in
  r2 = Err (AlreadyExists "WALLET") /\ files w2 = files w1.
Proof. vm_compute. split; reflexivity. Qed.

(** * Further properties of the code *)

(** ** keypairToSecretKeyJSON and getKeypairFromEnvironment *)

Section SecretKeyText.

Import Keypair.

Context `{Platform}.

(** X1. The text [keypairToSecretKeyJSON] writes reads back, through
    [Uint8Array.from(JSON.parse(text))], as the secret key it was made of;
    so two key pairs with different secret keys never get the same text. *)
Theorem keypairToSecretKeyJSON_round_trip (kp kp' : Keypair) :
  Json.parse_bytes (keypairToSecretKeyJSON kp) = Some (secretKey kp)
  /\ (keypairToSecretKeyJSON kp = keypairToSecretKeyJSON kp' ->
      secretKey kp = secretKey kp').
Proof.
  split; [apply parse_stringify_bytes |].
  intros Heq. apply (f_equal Json.parse_bytes) in Heq.
  unfold keypairToSecretKeyJSON in Heq.
  rewrite !parse_stringify_bytes in Heq. by injection Heq.
Qed.

(** Every key pair the loader returns came out of [Keypair.fromSecretKey]. *)
Lemma loader_Ok_inv (env : gmap string string) (variableName : string)
    (kp : Keypair) :
  getKeypairFromEnvironment env variableName = Ok kp ->
  exists value sk,
    env !! variableName = Some value
    /\ fromSecretKey sk = Ok kp
    /\ (Base58.decode value = Some sk
        \/ (Base58.decode value = None /\ Json.parse_bytes value = Some sk)).
Proof.
  unfold getKeypairFromEnvironment.
  destruct (env !! variableName) as [value |] eqn:Hv; [| discriminate].
  destruct (truthy (Some value)); [| discriminate].
  cbn [negb default from_option id]. unfold base58_decode.
  destruct (Base58.decode value) as [sk |] eqn:Hd.
  - destruct (fromSecretKey sk) as [kp0 | e] eqn:Hk.
    + intros [= <-]. exists value, sk. auto.
    + destruct (negb (includes "Non-base58 character" (message e))) eqn:Hi;
        [discriminate |].
      destruct (fromSecretKey_Err _ _ Hk) as [-> | ->];
        vm_compute in Hi; discriminate Hi.
  - change (includes "Non-base58 character" (message NonBase58Character))
      with true.
    cbn [negb].
    destruct (Json.parse_bytes value) as [sk |] eqn:Hp; [| discriminate].
    intros Hk. exists value, sk. auto.
Qed.

Lemma fromSecretKey_length (sk : list byte) (kp : Keypair) :
  fromSecretKey sk = Ok kp -> length sk = 64.
Proof.
  unfold fromSecretKey.
  destruct (Nat.eqb_spec (length sk) 64) as [Hlen | _]; [| discriminate].
  by intros _.
Qed.

(** X2. Whatever the loader returns is a well-formed key pair: its secret
    key has 64 bytes, its public key is the second half of them, 32 bytes
    long, and [Keypair.fromSecretKey] accepts the secret key again and gives
    the same key pair. *)
Theorem getKeypairFromEnvironment_returns_well_formed
    (env : gmap string string) (variableName : string) (kp : Keypair) :
  getKeypairFromEnvironment env variableName = Ok kp ->
  length (secretKey kp) = 64
  /\ publicKey kp = slice 32 64 (secretKey kp)
  /\ length (publicKey kp) = 32
  /\ fromSecretKey (secretKey kp) = Ok kp.
Proof.
  intros Hget.
  destruct (loader_Ok_inv _ _ _ Hget) as (value & sk & _ & Hk & _).
  pose proof (fromSecretKey_length _ _ Hk) as Hlen.
  pose proof (fromSecretKey_Ok _ _ Hk) as ->. cbn [secretKey publicKey].
  split; [exact Hlen |]. split; [reflexivity |]. split; [| exact Hk].
  unfold slice. rewrite length_take, length_drop. lia.
Qed.

(** X3. The failures of the loader, for every JSON reader. It throws one
    of four errors and no other. The configuration error is for a variable
    that is absent or empty. The loader's own "Invalid secret key" error is
    for a value that Base58 decodes to bytes that are no key pair, and for a
    value that is no Base58 text and on which [JSON.parse] or
    [Uint8Array.from] throws. The two errors of [Keypair.fromSecretKey]
    reach the caller unwrapped exactly for a value that is no Base58 text and
    that [Uint8Array.from(JSON.parse(value))] reads as bytes which are no
    key pair: the text of an object or of a short array, for one. *)
Theorem getKeypairFromEnvironment_failures
    (reader : string -> option (list byte))
    (env : gmap string string) (variableName : string) (e : error) :
  Reader.getKeypairFromEnvironment reader env variableName = Err e <->
  (e = PleaseSet variableName /\ truthy (env !! variableName) = false)
  \/ (e = InvalidSecretKey variableName
      /\ exists value, env !! variableName = Some value
         /\ truthy (Some value) = true
         /\ ((exists sk e', Base58.decode value = Some sk
                            /\ fromSecretKey sk = Err e')
             \/ (Base58.decode value = None /\ reader value = None)))
  \/ ((e = BadSecretKeySize \/ e = ProvidedSecretKeyInvalid)
      /\ exists value sk, env !! variableName = Some value
         /\ Base58.decode value = None
         /\ reader value = Some sk
         /\ fromSecretKey sk = Err e).
Proof.
  split.
  - destruct (truthy (env !! variableName)) eqn:Ht.
    2:{ rewrite (reader_not_set reader _ _ Ht). intros [= <-]. auto. }
    destruct (env !! variableName) as [value |] eqn:Hv; [| discriminate].
    assert (Hlook : env !! variableName = Some value) by exact Hv.
    rewrite (reader_set reader env variableName value Hv Ht).
    destruct (Base58.decode value) as [sk |] eqn:Hd.
    + destruct (fromSecretKey sk) as [kp0 | e0] eqn:Hk; [discriminate |].
      intros [= <-]. right. left. split; [reflexivity |].
      exists value. split; [reflexivity |]. split; [exact Ht |].
      left. by exists sk, e0.
    + destruct (reader value) as [sk |] eqn:Hr.
      * intros Hk. right. right.
        split; [exact (fromSecretKey_Err _ _ Hk) |].
        exists value, sk. auto.
      * intros [= <-]. right. left. split; [reflexivity |].
        exists value. auto.
  - intros [(-> & Ht) | [(-> & value & Hv & Ht & Hwhy)
                        | (_ & value & sk & Hv & Hd & Hr & Hk)]].
    + by apply reader_not_set.
    + rewrite (reader_set reader _ _ _ Hv Ht).
      destruct Hwhy as [(sk & e' & Hd & Hk) | (Hd & Hr)].
      * by rewrite Hd, Hk.
      * by rewrite Hd, Hr.
    + assert (Ht : truthy (Some value) = true).
      { destruct value; [discriminate Hd | reflexivity]. }
      rewrite (reader_set reader _ _ _ Hv Ht). by rewrite Hd, Hr.
Qed.

(** X4. The loader reads what [keypairToSecretKeyJSON] writes: a variable
    that holds the text of a key pair [Keypair.fromSecretKey] accepts loads
    as that key pair. *)
Theorem getKeypairFromEnvironment_reads_secret_key_json
    (env : gmap string string) (variableName : string) (kp : Keypair) :
  fromSecretKey (secretKey kp) = Ok kp ->
  env !! variableName = Some (keypairToSecretKeyJSON kp) ->
  getKeypairFromEnvironment env variableName = Ok kp.
Proof.
  intros Hk Hv. unfold keypairToSecretKeyJSON in Hv.
  by rewrite (loader_stringified _ _ _ Hv).
Qed.

End SecretKeyText.

Lemma getKeypairFromEnvironment_returns_well_formed_witness :
  length (Keypair.secretKey test_keypair) = 64
  /\ Keypair.publicKey test_keypair
     = slice 32 64 (Keypair.secretKey test_keypair)
  /\ length (Keypair.publicKey test_keypair) = 32
  /\ @Keypair.fromSecretKey test_platform (Keypair.secretKey test_keypair)
     = Ok test_keypair.
Proof.
  apply (@getKeypairFromEnvironment_returns_well_formed test_platform
           {[ "SECRET_KEY" := Json.stringify_bytes test_secretKey ]}
           "SECRET_KEY" test_keypair).
  vm_compute. reflexivity.
Defined.

(** The text of an empty object: the runtime reads it as no byte at all, and
    the caller gets the size error of the SDK. *)
Lemma getKeypairFromEnvironment_failures_witness :
  @Reader.getKeypairFromEnvironment test_platform object_reader
    {[ "SECRET_KEY" := "{}" ]} "SECRET_KEY"
  = Err BadSecretKeySize.
Proof.
  apply (proj2 (@getKeypairFromEnvironment_failures test_platform
                  object_reader {[ "SECRET_KEY" := "{}" ]} "SECRET_KEY"
                  BadSecretKeySize)).
  right. right. split; [by left |].
  exists "{}", []. repeat split; vm_compute; reflexivity.
Defined.

Lemma getKeypairFromEnvironment_reads_secret_key_json_witness :
  @Keypair.getKeypairFromEnvironment test_platform
    {[ "SECRET_KEY" := Keypair.keypairToSecretKeyJSON test_keypair ]}
    "SECRET_KEY"
  = Ok test_keypair.
Proof.
  apply (@getKeypairFromEnvironment_reads_secret_key_json test_platform).
  - vm_compute. reflexivity.
  - apply lookup_singleton_eq.
Defined.

(** ** addKeypairToEnvFile *)

Section EnvFileWrites.

Import Keypair.

Lemma append_empty_r (s : string) : s +:+ EmptyString = s.
Proof.
  induction s as [| c s IH]; [reflexivity |].
  rewrite append_cons. by rewrite IH.
Qed.

(** X5. [addKeypairToEnvFile] only ever appends, and only to its target
    file: every other file is left as it was, what the target file held
    stays at the front of what it holds afterwards, and a call that fails
    changes no file at all. *)
Theorem addKeypairToEnvFile_only_appends
    (env fs : gmap string string) (kp : Keypair) (variableName : string)
    (envFileName : option string) :
  let (r, fs') := addKeypairToEnvFile env fs kp variableName envFileName in
  (forall path, path <> target_file envFileName -> fs' !! path = fs !! path)
  /\ (exists added,
        default EmptyString (fs' !! target_file envFileName)
        = default EmptyString (fs !! target_file envFileName) +:+ added)
  /\ (r <> Ok tt -> fs' = fs).
Proof.
  destruct (truthy (env !! variableName)) eqn:Ht.
  - rewrite (addKeypairToEnvFile_conflict _ _ _ _ _ Ht).
    split; [reflexivity |]. split; [| reflexivity].
    exists EmptyString. by rewrite append_empty_r.
  - rewrite (addKeypairToEnvFile_appends _ _ _ _ _ Ht).
    split; [| split].
    + intros path Hne. unfold appendFile. by rewrite lookup_insert_ne.
    + eexists. unfold appendFile. rewrite lookup_insert_eq. reflexivity.
    + congruence.
Qed.

(** What dotenv reads from a file that ends in a record. *)
Lemma parse_append_record (src addr variableName secretKeyString : string) :
  Dotenv.all_chars not_newline addr = true ->
  Dotenv.valid_name variableName = true ->
  Dotenv.all_chars not_newline secretKeyString = true ->
  Dotenv.parse (src +:+ env_record addr variableName secretKeyString)
  = <[variableName := secretKeyString]> (Dotenv.parse src).
Proof.
  intros Ha Hn Hs.
  assert (Hn' : Dotenv.all_chars Dotenv.name_char variableName = true).
  { by destruct variableName. }
  unfold Dotenv.parse.
  rewrite lines_with_record by auto using name_no_newline.
  rewrite foldl_app. cbn [foldl].
  rewrite parse_line_comment.
  unfold entry_line. by rewrite (parse_line_entry _ _ Hn).
Qed.

(** What dotenv reads from a file of records. *)
Lemma parse_records_text (records : list (Keypair * string)) :
  Forall (fun r => Dotenv.valid_name r.2 = true) records ->
  Dotenv.parse (records_text records) = records_map records.
Proof.
  induction records as [| r records IH] using rev_ind; [reflexivity |].
  intros Hall. apply Forall_app in Hall as [Hall Hr].
  apply Forall_inv in Hr.
  unfold records_text, records_map. rewrite !foldl_app. cbn [foldl].
  fold (records_text records). fold (records_map records).
  rewrite parse_append_record;
    [| apply encode_one_line | exact Hr | apply stringify_bytes_one_line].
  by rewrite (IH Hall).
Qed.

(** X6. A target file that holds nothing but records written by earlier
    calls of [addKeypairToEnvFile], under names dotenv can carry: dotenv
    reads it as each name with the text of the key pair last written under
    it. After one more successful call the file holds one record more, the
    new name stands for the JSON text of the new secret key, and every
    other name stands for what it stood for before. *)
Theorem addKeypairToEnvFile_keeps_other_variables
    (env fs : gmap string string) (records : list (Keypair * string))
    (kp : Keypair) (variableName : string) (envFileName : option string) :
  Forall (fun r => Dotenv.valid_name r.2 = true) records ->
  Dotenv.valid_name variableName = true ->
  truthy (env !! variableName) = false ->
  default EmptyString (fs !! target_file envFileName) = records_text records ->
  let (r, fs') := addKeypairToEnvFile env fs kp variableName envFileName in
  let before :=
    Dotenv.parse (default EmptyString (fs !! target_file envFileName)) in
  let after :=
    Dotenv.parse (default EmptyString (fs' !! target_file envFileName)) in
  r = Ok tt
  /\ default EmptyString (fs' !! target_file envFileName)
     = records_text (records ++ [(kp, variableName)])
  /\ before = records_map records
  /\ after = records_map (records ++ [(kp, variableName)])
  /\ after !! variableName = Some (keypairToSecretKeyJSON kp)
  /\ (forall other, other <> variableName ->
        after !! other = before !! other).
Proof.
  intros Hall Hn Ht Hfile.
  rewrite (addKeypairToEnvFile_appends _ _ _ _ _ Ht). cbn zeta.
  unfold appendFile. rewrite lookup_insert_eq. cbn [default from_option id].
  rewrite Hfile.
  assert (Hmore : records_text records
                  +:+ env_record (toBase58 (publicKey kp)) variableName
                        (keypairToSecretKeyJSON kp)
                  = records_text (records ++ [(kp, variableName)])).
  { unfold records_text. by rewrite foldl_app. }
  assert (Hall' : Forall (fun r => Dotenv.valid_name r.2 = true)
                    (records ++ [(kp, variableName)])).
  { apply Forall_app. split; [exact Hall |]. by apply Forall_singleton. }
  rewrite Hmore, !parse_records_text by assumption.
  split; [reflexivity |]. split; [reflexivity |]. split; [reflexivity |].
  split; [reflexivity |].
  unfold records_map at 1 2. rewrite !foldl_app. cbn [foldl].
  fold (records_map records). cbn [fst snd].
  split; [apply lookup_insert_eq |].
  intros other Hne. by rewrite lookup_insert_ne.
Qed.

(** X7. Once the file has been read into the environment the guard does
    its work: after a successful [addKeypairToEnvFile] under a name that
    was not set, and [dotenv.config] on the same file, a second
    [addKeypairToEnvFile] under that name, for any key pair, is refused
    with the conflict error and leaves the files as they are. *)
Theorem addKeypairToEnvFile_refuses_after_reload
    (env fs : gmap string string) (kp kp2 : Keypair) (variableName : string)
    (envFileName : option string) :
  Dotenv.valid_name variableName = true ->
  env !! variableName = None ->
  let (r, fs') := addKeypairToEnvFile env fs kp variableName envFileName in
  let env' := Dotenv.config fs' (target_file envFileName) env in
  r = Ok tt
  /\ addKeypairToEnvFile env' fs' kp2 variableName envFileName
     = (Err (AlreadyExists variableName), fs').
Proof.
  intros Hn Hnone.
  assert (Ht : truthy (env !! variableName) = false) by by rewrite Hnone.
  rewrite (addKeypairToEnvFile_appends _ _ _ _ _ Ht). cbn zeta.
  split; [reflexivity |].
  apply addKeypairToEnvFile_conflict.
  unfold Dotenv.config, appendFile. rewrite lookup_insert_eq.
  rewrite lookup_union_r by exact Hnone.
  rewrite parse_append_record;
    [| apply encode_one_line | exact Hn | apply stringify_bytes_one_line].
  rewrite lookup_insert_eq. reflexivity.
Qed.

End EnvFileWrites.

Lemma addKeypairToEnvFile_keeps_other_variables_witness :
  let (r, fs') :=
    Keypair.addKeypairToEnvFile ∅
      {[ ".env" := records_text [(test_keypair2, "OTHER")] ]} test_keypair
      "SECRET_KEY" None in
  r = Ok tt
  /\ Dotenv.parse (default EmptyString (fs' !! ".env")) !! "SECRET_KEY"
     = Some (Keypair.keypairToSecretKeyJSON test_keypair)
  /\ Dotenv.parse (default EmptyString (fs' !! ".env")) !! "OTHER"
     = Some (Keypair.keypairToSecretKeyJSON test_keypair2).
Proof.
  pose proof (addKeypairToEnvFile_keeps_other_variables ∅
                {[ ".env" := records_text [(test_keypair2, "OTHER")] ]}
                [(test_keypair2, "OTHER")] test_keypair "SECRET_KEY" None)
    as Hkeeps.
  destruct (Keypair.addKeypairToEnvFile ∅
              {[ ".env" := records_text [(test_keypair2, "OTHER")] ]}
              test_keypair "SECRET_KEY" None) as [r fs'].
  destruct Hkeeps as (Hr & _ & Hbefore & _ & Hnew & Hother).
  - by repeat constructor.
  - reflexivity.
  - reflexivity.
  - by rewrite lookup_singleton_eq.
  - split; [exact Hr |]. split; [exact Hnew |].
    cbn zeta in Hother, Hbefore.
    change (Keypair.target_file None) with ".env" in Hother, Hbefore.
    rewrite (Hother "OTHER") by discriminate.
    rewrite Hbefore. vm_compute. reflexivity.
Defined.

Lemma addKeypairToEnvFile_refuses_after_reload_witness :
  let (r, fs') :=
    Keypair.addKeypairToEnvFile ∅ ∅ test_keypair "SECRET_KEY" None in
  let env' := Dotenv.config fs' (Keypair.target_file None) ∅ in
  r = Ok tt
  /\ Keypair.addKeypairToEnvFile env' fs' test_keypair "SECRET_KEY" None
     = (Err (AlreadyExists "SECRET_KEY"), fs').
Proof.
  apply (addKeypairToEnvFile_refuses_after_reload ∅ ∅ test_keypair
           test_keypair "SECRET_KEY" None).
  - reflexivity.
  - apply lookup_empty.
Defined.

(** ** getKeypairFromFile *)

Section FromFile.

Import Keypair KeypairFile.

Context `{Platform}.

(** The function reads the resolved file and nothing else. *)
Lemma getKeypairFromFile_resolved (node : Node)
    (env fs : gmap string string) (filepath : option string) :
  getKeypairFromFile node env fs filepath
  = let resolved := resolved_filepath node env filepath in
    match fs !! resolved with
    | None => Err (CouldNotRead resolved)
    | Some fileContents =>
        match parse_bytes node fileContents with
        | Err parse_message =>
            if negb (includes "Unexpected token" parse_message)
            then Err (Rethrown parse_message)
            else Err (InvalidSecretKeyFile resolved)
        | Ok parsedFileContents =>
            match fromSecretKey parsedFileContents with
            | Ok keypair => Ok keypair
            | Err e => Err (FromSecretKey e)
            end
        end
    end.
Proof.
  unfold getKeypairFromFile, resolved_filepath. cbn zeta.
  destruct (if negb (truthy filepath) then DEFAULT_FILEPATH
            else default EmptyString filepath) as [| c rest]; [reflexivity |].
  destruct c as [[] [] [] [] [] [] [] []]; reflexivity.
Qed.

(** X8. A file that holds the text [keypairToSecretKeyJSON] writes for a
    key pair [Keypair.fromSecretKey] accepts, the format of the Solana CLI,
    loads as that key pair. *)
Theorem getKeypairFromFile_reads_secret_key_json (node : Node)
    (env fs : gmap string string) (filepath : option string) (kp : Keypair) :
  fromSecretKey (secretKey kp) = Ok kp ->
  fs !! resolved_filepath node env filepath
  = Some (keypairToSecretKeyJSON kp) ->
  parse_bytes node (keypairToSecretKeyJSON kp) = Ok (secretKey kp) ->
  getKeypairFromFile node env fs filepath = Ok kp.
Proof.
  intros Hk Hfile Hparse.
  rewrite getKeypairFromFile_resolved. cbn zeta.
  by rewrite Hfile, Hparse, Hk.
Qed.

(** X9. Which file is read. The outcome depends on the files only through
    the resolved path; a resolved path that names no file gives the
    "Could not read" error with that path in it. A path that does not
    start with a tilde is used as given; a path that does is expanded only
    when HOME is set to a non-empty text, and is otherwise read literally,
    tilde included; no path, or the empty one, stands for the default
    path. *)
Theorem getKeypairFromFile_reads_resolved_path (node : Node)
    (env fs : gmap string string) (filepath : option string) :
  let resolved := resolved_filepath node env filepath in
  (forall fs2, fs2 !! resolved = fs !! resolved ->
     getKeypairFromFile node env fs2 filepath
     = getKeypairFromFile node env fs filepath)
  /\ (fs !! resolved = None ->
      getKeypairFromFile node env fs filepath = Err (CouldNotRead resolved))
  /\ (truthy filepath = false ->
      resolved = resolved_filepath node env (Some DEFAULT_FILEPATH))
  /\ (forall c rest, filepath = Some (String c rest) ->
      c <> "~"%char -> resolved = String c rest)
  /\ (forall rest, filepath = Some (String "~"%char rest) ->
      resolved
      = if truthy (env !! "HOME")
        then path_join node (default EmptyString (env !! "HOME")) rest
        else String "~"%char rest).
Proof.
  intros resolved. split; [| split; [| split; [| split]]].
  - intros fs2 Hsame. rewrite !getKeypairFromFile_resolved. cbn zeta.
    fold resolved. by rewrite Hsame.
  - intros Hnone. rewrite getKeypairFromFile_resolved. cbn zeta.
    fold resolved. by rewrite Hnone.
  - intros Hf. unfold resolved, resolved_filepath. by rewrite Hf.
  - intros c rest -> Hne. unfold resolved, resolved_filepath.
    cbn [truthy negb default from_option id].
    destruct c as [[] [] [] [] [] [] [] []]; try reflexivity. congruence.
  - intros rest ->. reflexivity.
Qed.

(** X10. Whatever [getKeypairFromFile] returns is the key pair of the
    bytes in the resolved file, and it is well formed: 64 bytes of secret
    key, the public key their second half, and [Keypair.fromSecretKey]
    gives it again. *)
Theorem getKeypairFromFile_returns_well_formed (node : Node)
    (env fs : gmap string string) (filepath : option string) (kp : Keypair) :
  getKeypairFromFile node env fs filepath = Ok kp ->
  (exists fileContents,
     fs !! resolved_filepath node env filepath = Some fileContents
     /\ parse_bytes node fileContents = Ok (secretKey kp))
  /\ length (secretKey kp) = 64
  /\ publicKey kp = slice 32 64 (secretKey kp)
  /\ fromSecretKey (secretKey kp) = Ok kp.
Proof.
  rewrite getKeypairFromFile_resolved. cbn zeta.
  destruct (fs !! resolved_filepath node env filepath) as [contents |];
    [| discriminate].
  destruct (parse_bytes node contents) as [bs | m] eqn:Hparse.
  2:{ by destruct (negb (includes "Unexpected token" m)). }
  destruct (fromSecretKey bs) as [kp0 | e] eqn:Hk; [| discriminate].
  intros [= <-].
  pose proof (fromSecretKey_length _ _ Hk) as Hlen.
  pose proof (fromSecretKey_Ok _ _ Hk) as ->. cbn [secretKey publicKey].
  split; [by exists contents |]. auto.
Qed.

(** X11. The failures of [getKeypairFromFile], and when each occurs: the
    file is not there; the parser fails with a message that contains
    "Unexpected token", which gives the "Invalid secret key file" error;
    the parser fails with any other message, which is thrown again as it
    is; or the parser gives bytes [Keypair.fromSecretKey] refuses, whose
    error reaches the caller as it is. *)
Theorem getKeypairFromFile_failures (node : Node)
    (env fs : gmap string string) (filepath : option string)
    (e : file_error) :
  getKeypairFromFile node env fs filepath = Err e ->
  let resolved := resolved_filepath node env filepath in
  (e = CouldNotRead resolved /\ fs !! resolved = None)
  \/ exists fileContents, fs !! resolved = Some fileContents
     /\ ((exists m, parse_bytes node fileContents = Err m
            /\ includes "Unexpected token" m = true
            /\ e = InvalidSecretKeyFile resolved)
         \/ (exists m, parse_bytes node fileContents = Err m
               /\ includes "Unexpected token" m = false
               /\ e = Rethrown m)
         \/ (exists bs e', parse_bytes node fileContents = Ok bs
               /\ fromSecretKey bs = Err e'
               /\ (e' = BadSecretKeySize \/ e' = ProvidedSecretKeyInvalid)
               /\ e = FromSecretKey e')).
Proof.
  rewrite getKeypairFromFile_resolved. cbn zeta.
  destruct (fs !! resolved_filepath node env filepath) as [contents |];
    [| intros [= <-]; by left].
  intros Hres. right. exists contents. split; [reflexivity |].
  destruct (parse_bytes node contents) as [bs | m] eqn:Hparse.
  - destruct (fromSecretKey bs) as [kp0 | e'] eqn:Hk; [discriminate |].
    injection Hres as <-. right. right. exists bs, e'.
    split; [reflexivity |]. split; [exact Hk |].
    split; [exact (fromSecretKey_Err _ _ Hk) | reflexivity].
  - destruct (includes "Unexpected token" m) eqn:Hi; cbn [negb] in Hres;
      injection Hres as <-.
    + left. by exists m.
    + right. left. by exists m.
Qed.

End FromFile.

Lemma getKeypairFromFile_reads_secret_key_json_witness :
  @KeypairFile.getKeypairFromFile test_platform test_node home_env home_files
    None
  = Ok test_keypair.
Proof.
  apply (@getKeypairFromFile_reads_secret_key_json test_platform test_node
           home_env home_files None test_keypair).
  - vm_compute. reflexivity.
  - vm_compute. reflexivity.
  - vm_compute. reflexivity.
Defined.

Lemma getKeypairFromFile_returns_well_formed_witness :
  (exists fileContents,
     home_files !! KeypairFile.resolved_filepath test_node home_env None
     = Some fileContents
     /\ KeypairFile.parse_bytes test_node fileContents
        = Ok (Keypair.secretKey test_keypair))
  /\ length (Keypair.secretKey test_keypair) = 64
  /\ Keypair.publicKey test_keypair
     = slice 32 64 (Keypair.secretKey test_keypair)
  /\ @Keypair.fromSecretKey test_platform (Keypair.secretKey test_keypair)
     = Ok test_keypair.
Proof.
  apply (@getKeypairFromFile_returns_well_formed test_platform test_node
           home_env home_files None test_keypair).
  vm_compute. reflexivity.
Defined.

Lemma getKeypairFromFile_failures_witness :
  exists bs,
    KeypairFile.parse_bytes test_node "[1,2,3]" = Ok bs
    /\ @Keypair.fromSecretKey test_platform bs = Err BadSecretKeySize.
Proof.
  destruct (@getKeypairFromFile_failures test_platform test_node ∅
              short_files (Some "id.json")
              (KeypairFile.FromSecretKey BadSecretKeySize))
    as [[Heq _] | (contents & Hfile & Hcase)].
  - vm_compute. reflexivity.
  - discriminate Heq.
  - vm_compute in Hfile. injection Hfile as <-.
    destruct Hcase as [(m & _ & _ & Heq) | [(m & _ & _ & Heq)
                      | (bs & e' & Hparse & Hk & _ & Heq)]];
      try discriminate Heq.
    injection Heq as <-. exists bs. split; [exact Hparse | exact Hk].
Defined.

(** ** makeKeypairs *)

Section MakeKeypairs.

Import Keypair Keypairs.

Context `{Platform}.

(** The array the loop builds from [Keypair.generate]: one key pair per
    seed, in the order the seeds are drawn. *)
Lemma fill_generate (n : nat) : forall drawn : nat,
  fill n generate drawn
  = (map (fun i => keypair_of_seed (randomSeed i)) (seq drawn n), drawn + n).
Proof.
  induction n as [| n IH]; intros drawn.
  - cbn. by rewrite Nat.add_0_r.
  - cbn [fill]. unfold generate at 1. cbn beta iota zeta.
    rewrite IH. cbn [seq map]. unfold keypair_of_seed at 2.
    by rewrite Nat.add_succ_r.
Qed.

Lemma makeKeypairs_below (amount : number) (drawn : nat) :
  (ToLength amount < 2 ^ 32)%N ->
  makeKeypairs amount drawn
  = (Ok (map (fun i => keypair_of_seed (randomSeed i))
           (seq drawn (N.to_nat (ToLength amount)))),
     drawn + N.to_nat (ToLength amount)).
Proof.
  intros Hlen. unfold makeKeypairs, Array_from. cbn zeta.
  destruct (N.leb_spec (2 ^ 32) (ToLength amount)) as [Hge | _]; [lia |].
  by rewrite fill_generate.
Qed.

(** A whole number below 2^53 is its own length. *)
Lemma ToLength_integer (n : N) : (n < 2 ^ 53)%N -> ToLength (integer n) = n.
Proof.
  intros Hn. unfold ToLength, integer, ToIntegerOrInfinity.
  rewrite Z.quot_1_r.
  destruct (Z.leb_spec (Z.of_N n) 0) as [Hle | Hgt]; [lia |].
  rewrite N2Z.id. unfold MAX_SAFE_INTEGER. lia.
Qed.

(** A finite amount counts as its integer part. *)
Lemma ToLength_integer_part (p : Z) (q : positive) (n : N) :
  (Z.of_N n * Z.pos q <= p < (Z.of_N n + 1) * Z.pos q)%Z ->
  (n < 2 ^ 53)%N ->
  ToLength (Fraction p q) = n.
Proof.
  intros [Hlo Hhi] Hn. unfold ToLength, ToIntegerOrInfinity.
  assert (Hquot : Z.quot p (Z.pos q) = Z.of_N n).
  { rewrite Z.quot_div_nonneg by lia.
    symmetry. apply (Z.div_unique_pos p (Z.pos q) (Z.of_N n)
                       (p - Z.of_N n * Z.pos q)); lia. }
  rewrite Hquot.
  destruct (Z.leb_spec (Z.of_N n) 0) as [Hle | Hgt]; [lia |].
  rewrite N2Z.id. unfold MAX_SAFE_INTEGER. lia.
Qed.

(** An amount below 1 counts as 0. *)
Lemma ToLength_below_one (p : Z) (q : positive) :
  (p < Z.pos q)%Z -> ToLength (Fraction p q) = 0%N.
Proof.
  intros Hp. unfold ToLength, ToIntegerOrInfinity.
  assert (Hquot : (Z.quot p (Z.pos q) <= 0)%Z).
  { destruct (Z.le_gt_cases 0 p) as [Hpos | Hneg].
    - rewrite Z.quot_small by lia. lia.
    - apply Z.quot_le_upper_bound; lia. }
  destruct (Z.leb_spec (Z.quot p (Z.pos q)) 0) as [_ | Hgt]; [reflexivity | lia].
Qed.

(** X12. [makeKeypairs] and the length it is asked for. The amount is read
    as a length: not-a-number, a negative amount and an amount below 1 count
    as 0, any other finite amount as its integer part. For a length below
    2^32 the call returns that many key pairs and draws exactly that many
    seeds, and every key pair is one [Keypair.fromSecretKey] accepts, with
    the public key as the second half of the secret key. For a length of
    2^32 or more the call throws a range error before any key pair is
    generated. *)
Theorem makeKeypairs_count_and_validity (amount : number) (drawn : nat) :
  Platform_ok ->
  ((ToLength amount < 2 ^ 32)%N ->
   exists keypairs,
     makeKeypairs amount drawn
     = (Ok keypairs, drawn + N.to_nat (ToLength amount))
     /\ length keypairs = N.to_nat (ToLength amount)
     /\ Forall (fun kp => fromSecretKey (secretKey kp) = Ok kp
                          /\ consistent kp) keypairs)
  /\ ((2 ^ 32 <= ToLength amount)%N ->
      makeKeypairs amount drawn = (Err InvalidArrayLength, drawn))
  /\ ToLength NaN = 0%N
  /\ ToLength (Infinity true) = 0%N
  /\ (2 ^ 32 <= ToLength (Infinity false))%N
  /\ (forall p q, (p < Z.pos q)%Z -> ToLength (Fraction p q) = 0%N)
  /\ (forall p q n,
        (Z.of_N n * Z.pos q <= p < (Z.of_N n + 1) * Z.pos q)%Z ->
        (n < 2 ^ 53)%N ->
        ToLength (Fraction p q) = n).
Proof.
  intros Hok. split; [| split].
  - intros Hlen. rewrite (makeKeypairs_below _ _ Hlen).
    eexists. split; [reflexivity |]. split.
    + by rewrite length_map, length_seq.
    + apply Forall_forall. intros kp Hin.
      apply list_elem_of_In, in_map_iff in Hin as (i & <- & _).
      unfold keypair_of_seed. cbn [secretKey].
      rewrite (fromSecretKey_generated _ Hok (proj2 Hok i)).
      split; [reflexivity |].
      pose proof (fromSecretKey_generated _ Hok (proj2 Hok i)) as Hk.
      apply fromSecretKey_Ok in Hk. unfold consistent.
      cbn [publicKey secretKey]. by injection Hk.
  - intros Hlen. unfold makeKeypairs, Array_from. cbn zeta.
    by destruct (N.leb_spec (2 ^ 32) (ToLength amount)) as [_ | Hlt]; [| lia].
  - split; [reflexivity |]. split; [reflexivity |].
    split; [by vm_compute |].
    split; [exact ToLength_below_one | exact ToLength_integer_part].
Qed.

(** X13. For whole amounts [a] and [b] whose sum is below 2^32, asking for
    [a + b] key pairs is asking for [a] and then for [b]: the same key pairs
    in the same order, and the same seeds drawn. *)
Theorem makeKeypairs_add (a b : N) (drawn : nat) :
  (a + b < 2 ^ 32)%N ->
  exists first second drawn1 drawn2,
    makeKeypairs (integer a) drawn = (Ok first, drawn1)
    /\ makeKeypairs (integer b) drawn1 = (Ok second, drawn2)
    /\ makeKeypairs (integer (a + b)) drawn
       = (Ok (first ++ second)%list, drawn2).
Proof.
  intros Hsum.
  assert (Hbig : (2 ^ 32 < 2 ^ 53)%N) by (by vm_compute).
  assert (Ha : ToLength (integer a) = a) by (apply ToLength_integer; lia).
  assert (Hb : ToLength (integer b) = b) by (apply ToLength_integer; lia).
  assert (Hab : ToLength (integer (a + b)) = (a + b)%N)
    by (apply ToLength_integer; lia).
  exists (map (fun i => keypair_of_seed (randomSeed i))
            (seq drawn (N.to_nat a))),
    (map (fun i => keypair_of_seed (randomSeed i))
       (seq (drawn + N.to_nat a) (N.to_nat b))),
    (drawn + N.to_nat a), (drawn + N.to_nat a + N.to_nat b).
  rewrite !makeKeypairs_below by (rewrite ?Ha, ?Hb, ?Hab; lia).
  rewrite Ha, Hb, Hab.
  split; [reflexivity |]. split; [reflexivity |].
  rewrite N2Nat.inj_add.
  rewrite seq_app, map_app. by rewrite Nat.add_assoc.
Qed.

(** X14. For a length below 2^32, and as long as the generator does not
    repeat a seed, no two of the key pairs [makeKeypairs] returns share a
    secret key. *)
Theorem makeKeypairs_distinct (amount : number) (drawn : nat) :
  Platform_ok ->
  (ToLength amount < 2 ^ 32)%N ->
  NoDup (map randomSeed (seq drawn (N.to_nat (ToLength amount)))) ->
  exists keypairs,
    fst (makeKeypairs amount drawn) = Ok keypairs
    /\ NoDup (map secretKey keypairs).
Proof.
  intros [_ Hseed] Hlen Hnodup. rewrite (makeKeypairs_below _ _ Hlen).
  eexists. split; [reflexivity |].
  rewrite map_map. cbn [keypair_of_seed secretKey].
  rewrite <- (map_map randomSeed (fun s => s ++ getPublicKey s)%list).
  apply NoDup_fmap_2_strong; [| exact Hnodup].
  intros s1 s2 Hin1 Hin2 Heq.
  apply list_elem_of_In, in_map_iff in Hin1 as (i1 & <- & _).
  apply list_elem_of_In, in_map_iff in Hin2 as (i2 & <- & _).
  apply (f_equal (take 32)) in Heq.
  by rewrite !take_app_length' in Heq by (symmetry; apply Hseed).
Qed.

End MakeKeypairs.

(** Three and a half key pairs are three. *)
Lemma makeKeypairs_count_and_validity_witness :
  exists keypairs,
    @Keypairs.makeKeypairs test_platform (Keypairs.Fraction 7 2) 0
    = (Ok keypairs, 3)
    /\ length keypairs = 3.
Proof.
  destruct (@makeKeypairs_count_and_validity test_platform
              (Keypairs.Fraction 7 2) 0 test_platform_ok) as [Hbelow _].
  destruct Hbelow as (keypairs & Hrun & Hlen & _); [by vm_compute |].
  exists keypairs. split; [exact Hrun | exact Hlen].
Defined.

Lemma makeKeypairs_add_witness :
  exists first second drawn1 drawn2,
    @Keypairs.makeKeypairs test_platform (Keypairs.integer 1) 0
    = (Ok first, drawn1)
    /\ @Keypairs.makeKeypairs test_platform (Keypairs.integer 2) drawn1
       = (Ok second, drawn2)
    /\ @Keypairs.makeKeypairs test_platform (Keypairs.integer (1 + 2)) 0
       = (Ok (first ++ second)%list, drawn2).
Proof.
  apply (@makeKeypairs_add test_platform 1 2 0). by vm_compute.
Defined.

Lemma makeKeypairs_distinct_witness :
  exists keypairs,
    fst (@Keypairs.makeKeypairs test_platform (Keypairs.integer 3) 0)
    = Ok keypairs
    /\ NoDup (map Keypair.secretKey keypairs).
Proof.
  apply (@makeKeypairs_distinct test_platform (Keypairs.integer 3) 0).
  - exact test_platform_ok.
  - by vm_compute.
  - apply (bool_decide_eq_true_1 _). vm_compute. reflexivity.
Defined.

(** An amount of 2^32 is refused, and no seed is drawn; an amount that is
    not a number gives the empty array. *)
Example makeKeypairs_too_many :
  @Keypairs.makeKeypairs test_platform (Keypairs.integer (2 ^ 32)) 0
  = (Err Keypairs.InvalidArrayLength, 0)
  /\ @Keypairs.makeKeypairs test_platform Keypairs.NaN 0 = (Ok [], 0).
Proof. split; vm_compute; reflexivity. Qed.

(** ** createWallet, beyond the funding step *)

Section CreateWalletMore.

Import Wallet.

Context `{Platform}.

Lemma no_persistence_branch (options : Options) :
  requests_persistence options = false ->
  match
    or_default
      (if truthy (envVariableName options)
          && negb (truthy_string (envFileName options))
       then Value ".env" else envFileName options) Null
  with
  | Value (String _ _) => False
  | _ => True
  end.
Proof.
  unfold requests_persistence.
  destruct (envFileName options) as [| | [| c rest]];
    destruct (truthy (envVariableName options)); cbn;
    try discriminate; auto.
Qed.

(** X15. A call of [createWallet] that requests no persistence (no file
    name, no variable name) grinds one key pair with [prefix] and
    [suffix] and returns a signer around that very key pair: up to the
    funding step no file and no environment variable is written and no
    funding request is made, the key pair is not extractable, and with an
    amount of [null] the call returns there. *)
Theorem createWallet_without_persistence
    (airdropIfRequired : string -> N -> N -> M World N)
    (fuel : nat) (options : Options) (w w1 : World) (k : CryptoKeyPair) :
  requests_persistence options = false ->
  grindKeyPair fuel (plain_grind_options options) w = (Ok k, w1) ->
  let signer := mkKeyPairSigner (address_of (keyBytes k)) k in
  createWalletFactory airdropIfRequired fuel options w
  = fund airdropIfRequired (effective_amount options) signer w1
  /\ env w1 = env w /\ files w1 = files w /\ net w1 = net w
  /\ extractable k = false
  /\ (airdropAmount options = Null ->
      createWalletFactory airdropIfRequired fuel options w = (Ok signer, w1)).
Proof.
  intros Hreq Hgrind signer.
  destruct (grindKeyPair_spec _ _ _ _ _ Hgrind)
    as (He & Hf & Hn & _ & Hext & _ & _).
  assert (Hnew : newSigner fuel options w = (Ok signer, w1)).
  { unfold newSigner. cbn zeta.
    pose proof (no_persistence_branch options Hreq) as Hbranch.
    fold (plain_grind_options options).
    destruct (or_default _ Null) as [| | [| c rest]]; try contradiction;
      by rewrite run_bind, Hgrind. }
  pose proof (createWalletFactory_after_signer airdropIfRequired _ _ _ _ _
                Hnew) as Hrun.
  split; [exact Hrun |]. split; [exact He |]. split; [exact Hf |].
  split; [exact Hn |]. split; [exact Hext |].
  intros Hnull. rewrite Hrun. unfold effective_amount. by rewrite Hnull.
Qed.

(** The signer of the persistence branch loads again from the environment
    and from the file. *)
Lemma generated_public_half (seed : list byte) :
  Platform_ok -> length seed = 32 ->
  slice 32 64 (seed ++ getPublicKey seed)%list = getPublicKey seed.
Proof.
  intros Hok Hseed.
  pose proof (fromSecretKey_generated _ Hok Hseed) as Hk.
  apply fromSecretKey_Ok in Hk. by injection Hk.
Qed.

(** X16. After [createWallet] has persisted a wallet, the two other ways to
    the key agree with the signer it returns: [getKeypairFromEnvironment] on
    the variable gives a key pair with the signer's address and the bytes
    of the signer's key, and the comment line of the record in the file
    carries that address. *)
Theorem createWallet_persisted_wallet_loads_again
    (airdropIfRequired : string -> N -> N -> M World N)
    (fuel : nat) (options : Options) (w w1 : World) (temp : CryptoKeyPair) :
  Platform_ok ->
  requests_persistence options = true ->
  Dotenv.valid_name (target_variable options) = true ->
  env w !! target_variable options = None ->
  Dotenv.parse (default EmptyString (files w !! target_file options))
    !! target_variable options = None ->
  grindKeyPair fuel (temporary_grind_options options) w = (Ok temp, w1) ->
  exists signer w2 kp,
    createWalletFactory airdropIfRequired fuel options w
    = fund airdropIfRequired (effective_amount options) signer w2
    /\ Keypair.getKeypairFromEnvironment (env w2) (target_variable options)
       = Ok kp
    /\ Keypair.toBase58 (Keypair.publicKey kp) = address signer
    /\ Keypair.secretKey kp = keyBytes (keyPair signer)
    /\ Keypair.recorded_address
         (default EmptyString (files w2 !! target_file options))
         (target_variable options)
       = Some (address signer).
Proof.
  intros Hok Hreq Hname Henv Hfile Hgrind.
  pose proof (newSigner_persists fuel options w w1 temp
                Hok Hreq Hname Henv Hfile Hgrind) as Hnew.
  cbn zeta in Hnew.
  destruct (grindKeyPair_spec _ _ _ _ _ Hgrind)
    as (He & Hf & _ & _ & _ & (i & Hbytes) & _).
  do 2 eexists.
  exists (Keypair.mkKeypair (getPublicKey (randomSeed i)) (keyBytes temp)).
  split; [exact (createWalletFactory_after_signer _ _ _ _ _ _ Hnew) |].
  cbn [env files address keyPair keyBytes Keypair.publicKey
         Keypair.secretKey].
  split; [| split; [| split; [reflexivity |]]].
  - rewrite (loader_stringified _ _ (keyBytes temp)).
    + rewrite Hbytes.
      apply (fromSecretKey_generated _ Hok (proj2 Hok i)).
    + unfold Dotenv.config, appendFile. rewrite lookup_insert_eq, He, Hf.
      rewrite lookup_union_r by exact Henv.
      apply parse_with_record;
        [apply encode_one_line | exact Hname
        | apply stringify_bytes_one_line].
  - unfold Keypair.toBase58, address_of. rewrite Hbytes.
    by rewrite (generated_public_half _ Hok (proj2 Hok i)).
  - unfold appendFile. rewrite lookup_insert_eq.
    cbn [default from_option id].
    apply recorded_address_with_record;
      [apply encode_one_line | exact Hname | apply stringify_bytes_one_line].
Qed.

(** X17. When the network refuses the funding request, [createWallet] with
    persistence fails with that error after the wallet has been persisted:
    the record of the new key stays in the target file and the variable
    stays set in the environment. *)
Theorem createWallet_failed_funding_keeps_record
    (fuel : nat) (options : Options) (w w1 : World) (temp : CryptoKeyPair)
    (a : N) :
  Platform_ok ->
  requests_persistence options = true ->
  Dotenv.valid_name (target_variable options) = true ->
  env w !! target_variable options = None ->
  Dotenv.parse (default EmptyString (files w !! target_file options))
    !! target_variable options = None ->
  grindKeyPair fuel (temporary_grind_options options) w = (Ok temp, w1) ->
  effective_amount options = Value a -> a <> 0%N ->
  balance_of (net w) (address_of (keyBytes temp)) = 0%N ->
  faucetOpen (net w) = false ->
  exists w3,
    createWalletFactory Sol.airdropIfRequired fuel options w
    = (Err (RpcError "airdrop failed"), w3)
    /\ files w3 !! target_file options
       = Some (default EmptyString (files w !! target_file options)
               +:+ Keypair.env_record (address_of (keyBytes temp))
                     (target_variable options)
                     (Json.stringify_bytes (keyBytes temp)))
    /\ env w3 !! target_variable options
       = Some (Json.stringify_bytes (keyBytes temp))
    /\ requests (net w3)
       = (requests (net w) ++ [(address_of (keyBytes temp), a)])%list.
Proof.
  intros Hok Hreq Hname Henv Hfile Hgrind Ha Hne Hzero Hclosed.
  pose proof (newSigner_persists fuel options w w1 temp
                Hok Hreq Hname Henv Hfile Hgrind) as Hnew.
  cbn zeta in Hnew.
  destruct (grindKeyPair_spec _ _ _ _ _ Hgrind)
    as (He & Hf & Hn & _ & _ & _ & _).
  rewrite (createWalletFactory_after_signer _ _ _ _ _ _ Hnew), Ha.
  rewrite fund_fresh; cbn [net address]; rewrite ?Hn; try assumption.
  rewrite Hclosed. eexists. split; [reflexivity |].
  cbn [set_net files env net requests].
  split; [| split; [| reflexivity]].
  - unfold appendFile. by rewrite lookup_insert_eq, Hf.
  - unfold Dotenv.config, appendFile. rewrite lookup_insert_eq, He, Hf.
    rewrite lookup_union_r by exact Henv.
    apply parse_with_record;
      [apply encode_one_line | exact Hname | apply stringify_bytes_one_line].
Qed.

End CreateWalletMore.

Lemma createWallet_without_persistence_witness :
  @Wallet.createWalletFactory test_platform probe 1 null_amount_options
    empty_world
  = (Ok test_plain_signer, test_plain_world)
  /\ files test_plain_world = files empty_world
  /\ env test_plain_world = env empty_world.
Proof.
  destruct (@createWallet_without_persistence test_platform probe 1
              null_amount_options empty_world test_plain_world
              test_plain_key)
    as (_ & He & Hf & _ & _ & Hnull).
  - reflexivity.
  - vm_compute. reflexivity.
  - split; [exact (Hnull eq_refl) |]. split; [exact Hf | exact He].
Defined.

Lemma createWallet_persisted_wallet_loads_again_witness :
  exists signer w2 kp,
    @Wallet.createWalletFactory test_platform probe 1 persist_options
      empty_world
    = Wallet.fund probe
        (@Wallet.effective_amount test_platform persist_options) signer w2
    /\ @Keypair.getKeypairFromEnvironment test_platform (env w2)
         (@Wallet.target_variable test_platform persist_options)
       = Ok kp
    /\ Keypair.toBase58 (Keypair.publicKey kp) = address signer
    /\ Keypair.secretKey kp = keyBytes (keyPair signer)
    /\ Keypair.recorded_address
         (default EmptyString
            (files w2 !! Wallet.target_file persist_options))
         (@Wallet.target_variable test_platform persist_options)
       = Some (address signer).
Proof.
  apply (@createWallet_persisted_wallet_loads_again test_platform probe 1
           persist_options empty_world test_ground_world test_temp).
  - exact test_platform_ok.
  - reflexivity.
  - reflexivity.
  - apply lookup_empty.
  - vm_compute. reflexivity.
  - vm_compute. reflexivity.
Defined.

Lemma createWallet_failed_funding_keeps_record_witness :
  exists w3,
    @Wallet.createWalletFactory test_platform Sol.airdropIfRequired 1
      persist_options closed_world
    = (Err (RpcError "airdrop failed"), w3)
    /\ env w3 !! "WALLET" = Some (Json.stringify_bytes (keyBytes test_temp)).
Proof.
  destruct (@createWallet_failed_funding_keeps_record test_platform 1
              persist_options closed_world closed_ground_world test_temp
              1000000000%N)
    as (w3 & Hrun & _ & Henv & _).
  - exact test_platform_ok.
  - reflexivity.
  - reflexivity.
  - apply lookup_empty.
  - vm_compute. reflexivity.
  - vm_compute. reflexivity.
  - reflexivity.
  - discriminate.
  - vm_compute. reflexivity.
  - reflexivity.
  - exists w3. split; [exact Hrun | exact Henv].
Defined.

(** ** Base58 texts *)

Lemma size_nat_bound (n : N) : (n < 2 ^ N.of_nat (N.size_nat n))%N.
Proof.
  destruct n as [| p]; [reflexivity |]. cbn [N.size_nat].
  induction p as [p IH | p IH |].
  - cbn [Pos.size_nat]. rewrite Nat2N.inj_succ, N.pow_succ_r'. lia.
  - cbn [Pos.size_nat]. rewrite Nat2N.inj_succ, N.pow_succ_r'. lia.
  - reflexivity.
Qed.

Section Positional.

Import Base58.

Variable b : N.
Hypothesis Hb : (2 <= b)%N.

Lemma value_of_snoc (ds : list N) (d : N) :
  value_of b (ds ++ [d]) = (value_of b ds * b + d)%N.
Proof. unfold value_of. by rewrite fold_left_app. Qed.

Lemma div_step (v d : N) : (d < b)%N -> ((v * b + d) / b = v)%N.
Proof. intros Hd. symmetry. apply (N.div_unique _ _ _ d); lia. Qed.

Lemma mod_step (v d : N) : (d < b)%N -> ((v * b + d) mod b = d)%N.
Proof. intros Hd. symmetry. apply (N.mod_unique _ _ v); lia. Qed.

Lemma digits_le_zero (fuel : nat) : digits_le fuel b 0 = [].
Proof. by destruct fuel. Qed.

Lemma half_bound (n : N) (fuel : nat) :
  (n < 2 ^ N.of_nat (S fuel))%N -> (n / b < 2 ^ N.of_nat fuel)%N.
Proof.
  rewrite Nat2N.inj_succ, N.pow_succ_r'. intros Hn.
  apply N.Div0.div_lt_upper_bound. nia.
Qed.

(** The digits denote the number they were made of. *)
Lemma value_of_digits (fuel : nat) : forall n : N,
  (n < 2 ^ N.of_nat fuel)%N ->
  value_of b (rev (digits_le fuel b n)) = n.
Proof.
  induction fuel as [| fuel IH]; intros n Hn.
  - cbn in Hn. assert (n = 0%N) as -> by lia. reflexivity.
  - cbn [digits_le]. destruct (N.eqb_spec n 0) as [-> | Hne]; [reflexivity |].
    cbn [rev]. rewrite value_of_snoc, (IH _ (half_bound _ _ Hn)).
    pose proof (N.Div0.div_mod n b). lia.
Qed.

Lemma digits_le_bounded (fuel : nat) : forall n : N,
  Forall (fun d => (d < b)%N) (digits_le fuel b n).
Proof.
  induction fuel as [| fuel IH]; intros n; [constructor |].
  cbn [digits_le]. destruct (n =? 0)%N; [constructor |].
  constructor; [apply N.mod_lt; lia | apply IH].
Qed.

Lemma no_leading_zero_snoc (ds : list N) (d : N) :
  ds <> [] -> no_leading_zero ds -> no_leading_zero (ds ++ [d]).
Proof. by destruct ds. Qed.

Lemma digits_no_leading_zero (fuel : nat) : forall n : N,
  (n < 2 ^ N.of_nat fuel)%N ->
  no_leading_zero (rev (digits_le fuel b n)).
Proof.
  induction fuel as [| fuel IH]; intros n Hn; [exact I |].
  cbn [digits_le]. destruct (N.eqb_spec n 0) as [-> | Hne]; [exact I |].
  cbn [rev].
  pose proof (IH _ (half_bound _ _ Hn)) as Hrest.
  pose proof (value_of_digits fuel _ (half_bound _ _ Hn)) as Hvalue.
  destruct (rev (digits_le fuel b (n / b))) as [| h t] eqn:Hrev.
  - cbn in Hvalue. cbn [app no_leading_zero].
    pose proof (N.Div0.div_mod n b). lia.
  - exact Hrest.
Qed.

Lemma value_of_positive (ds : list N) :
  ds <> [] -> no_leading_zero ds -> (0 < value_of b ds)%N.
Proof.
  destruct ds as [| h t]; [congruence |]. intros _ Hh. cbn in Hh.
  unfold value_of. cbn [fold_left]. rewrite N.mul_0_l, N.add_0_l.
  assert (Hpos : (0 < h)%N) by lia. clear Hh. revert h Hpos.
  induction t as [| d t IH]; intros h Hpos; [exact Hpos |].
  cbn [fold_left]. apply IH. nia.
Qed.

(** The digits of the number a digit list denotes are that list. *)
Lemma digits_of_value (ds : list N) : forall fuel : nat,
  Forall (fun d => (d < b)%N) ds ->
  no_leading_zero ds ->
  (value_of b ds < 2 ^ N.of_nat fuel)%N ->
  rev (digits_le fuel b (value_of b ds)) = ds.
Proof.
  induction ds as [| d ds IH] using rev_ind; intros fuel Hall Hlead Hfuel.
  - by rewrite digits_le_zero.
  - apply Forall_app in Hall as [Hall Hd].
    apply Forall_inv in Hd.
    rewrite value_of_snoc in *.
    assert (Hpos : (0 < value_of b ds * b + d)%N).
    { destruct ds as [| h t].
      - cbn in Hlead. cbn. lia.
      - assert (0 < value_of b (h :: t))%N by (by apply value_of_positive).
        nia. }
    destruct fuel as [| fuel]; [cbn in Hfuel; lia |].
    cbn [digits_le].
    destruct (N.eqb_spec (value_of b ds * b + d) 0) as [Hz | _]; [lia |].
    rewrite (div_step _ _ Hd), (mod_step _ _ Hd). cbn [rev].
    rewrite IH; [reflexivity | exact Hall | by destruct ds |].
    pose proof (half_bound _ _ Hfuel) as Hhalf.
    by rewrite (div_step _ _ Hd) in Hhalf.
Qed.

Lemma value_of_zeros (z : nat) (ds : list N) :
  value_of b (replicate z 0%N ++ ds) = value_of b ds.
Proof.
  induction z as [| z IH]; [reflexivity |].
  cbn [replicate app]. unfold value_of in *. cbn [fold_left].
  by rewrite N.mul_0_l, N.add_0_l.
Qed.

End Positional.

Section Base58RoundTrip.

Import Base58.

Lemma digit_of_char_of_digit (d : N) :
  (d < 58)%N -> digit_of_char (char_of_digit d) = Some d.
Proof.
  intros Hd. rewrite <- (N2Nat.id d) in *.
  assert (Hn : N.to_nat d < 58) by lia. clear Hd.
  generalize dependent (N.to_nat d). intros n Hn.
  do 58 (destruct n as [| n]; [reflexivity |]). lia.
Qed.

Lemma digits_of_chars (ds : list N) :
  Forall (fun d => (d < 58)%N) ds ->
  digits_of (string_of_list_ascii (map char_of_digit ds)) = Some ds.
Proof.
  induction 1 as [| d ds Hd _ IH]; [reflexivity |].
  cbn [map string_of_list_ascii digits_of].
  by rewrite (digit_of_char_of_digit _ Hd), IH.
Qed.

Lemma leading_zeros_zeros (z : nat) (ds : list N) :
  no_leading_zero ds ->
  leading_zeros (replicate z 0%N ++ ds) = z.
Proof.
  intros Hds. induction z as [| z IH].
  - destruct ds as [| [| p] t]; [reflexivity | by cbn in Hds | reflexivity].
  - cbn [replicate app leading_zeros]. by rewrite IH.
Qed.

(** A digit list is its leading zeros and a rest without leading zero. *)
Lemma leading_zeros_split (ds : list N) :
  exists rest,
    ds = (replicate (leading_zeros ds) 0%N ++ rest)%list
    /\ no_leading_zero rest.
Proof.
  induction ds as [| d ds (rest & Hsplit & Hrest)].
  - by exists [].
  - destruct d as [| p].
    + exists rest. cbn [leading_zeros replicate app].
      by rewrite <- Hsplit.
    + by exists (N.pos p :: ds).
Qed.

Lemma byte_of_to_N (x : byte) : byte_of_N (Byte.to_N x) = x.
Proof. unfold byte_of_N. by rewrite Byte.of_to_N. Qed.

(** Decoding the Base58 text of some bytes gives the bytes. *)
Lemma decode_encode (bs : list byte) : decode (encode bs) = Some bs.
Proof.
  unfold decode, encode. cbn zeta.
  set (ds := map Byte.to_N bs).
  assert (Hbytes : Forall (fun d => (d < 256)%N) ds).
  { apply Forall_forall. intros d Hin.
    apply list_elem_of_In, in_map_iff in Hin as (x & <- & _).
    pose proof (Byte.to_N_bounded x). lia. }
  destruct (leading_zeros_split ds) as (rest & Hsplit & Hrest).
  set (z := leading_zeros ds) in *.
  assert (Hvalue : value_of 256 ds = value_of 256 rest).
  { rewrite Hsplit. apply (value_of_zeros 256). }
  rewrite Hvalue. set (v := value_of 256 rest).
  assert (H2 : (2 <= 58)%N) by lia.
  assert (H256 : (2 <= 256)%N) by lia.
  assert (H58 : Forall (fun d => (d < 58)%N)
                  (replicate z 0%N ++ digits_be 58 v)).
  { apply Forall_app. split.
    - apply Forall_forall. intros d Hin.
      apply elem_of_replicate in Hin as [-> _]. lia.
    - unfold digits_be. apply Forall_rev.
      apply (digits_le_bounded 58 H2). }
  rewrite (digits_of_chars _ H58).
  rewrite leading_zeros_zeros
    by (apply (digits_no_leading_zero 58 H2), size_nat_bound).
  rewrite (value_of_zeros 58).
  unfold digits_be.
  rewrite (value_of_digits 58 H2) by apply size_nat_bound.
  unfold v.
  rewrite (digits_of_value 256 H256);
    [| | exact Hrest | apply size_nat_bound].
  2:{ rewrite Hsplit in Hbytes. by apply Forall_app in Hbytes as [_ ?]. }
  f_equal. transitivity (map byte_of_N ds).
  - rewrite Hsplit, map_app. f_equal.
    generalize z. clear. intros z.
    induction z as [| z IH]; [reflexivity |].
    cbn [replicate map]. by rewrite IH.
  - unfold ds. rewrite map_map. rewrite <- (map_id bs) at 2.
    apply map_ext. intros x. apply byte_of_to_N.
Qed.

End Base58RoundTrip.

Section MoreLoading.

Import Keypair.

Context `{Platform}.

(** X18. The loader reads the compact encoding of every key pair: a
    variable that holds the Base58 text of the secret key of a key pair
    [Keypair.fromSecretKey] accepts loads as that key pair. *)
Theorem getKeypairFromEnvironment_reads_base58
    (env : gmap string string) (variableName : string) (kp : Keypair) :
  fromSecretKey (secretKey kp) = Ok kp ->
  env !! variableName = Some (Base58.encode (secretKey kp)) ->
  getKeypairFromEnvironment env variableName = Ok kp.
Proof.
  intros Hk Hv. apply (loader_base58 _ _ _ _ Hv).
  exists (secretKey kp). split; [apply decode_encode | exact Hk].
Qed.

(** X19. Two key pairs written to one file under two different names, and
    the file then read into the environment: each name loads as its own
    key pair. *)
Theorem addKeypairToEnvFile_two_names
    (env fs : gmap string string) (kp1 kp2 : Keypair) (name1 name2 : string)
    (envFileName : option string) :
  Dotenv.valid_name name1 = true -> Dotenv.valid_name name2 = true ->
  name1 <> name2 ->
  env !! name1 = None -> env !! name2 = None ->
  fromSecretKey (secretKey kp1) = Ok kp1 ->
  fromSecretKey (secretKey kp2) = Ok kp2 ->
  let (r1, fs1) := addKeypairToEnvFile env fs kp1 name1 envFileName in
  let (r2, fs2) := addKeypairToEnvFile env fs1 kp2 name2 envFileName in
  let env' := Dotenv.config fs2 (target_file envFileName) env in
  r1 = Ok tt /\ r2 = Ok tt
  /\ getKeypairFromEnvironment env' name1 = Ok kp1
  /\ getKeypairFromEnvironment env' name2 = Ok kp2.
Proof.
  intros Hn1 Hn2 Hne He1 He2 Hk1 Hk2.
  rewrite addKeypairToEnvFile_appends by (by rewrite He1).
  rewrite addKeypairToEnvFile_appends by (by rewrite He2).
  cbn zeta. split; [reflexivity |]. split; [reflexivity |].
  set (path := target_file envFileName).
  set (fs1 := appendFile fs path _).
  assert (Hparse :
            Dotenv.parse
              (default EmptyString (appendFile fs1 path
                 (env_record (toBase58 (publicKey kp2)) name2
                    (keypairToSecretKeyJSON kp2)) !! path))
            = <[name2 := keypairToSecretKeyJSON kp2]>
                (<[name1 := keypairToSecretKeyJSON kp1]>
                   (Dotenv.parse (default EmptyString (fs !! path))))).
  { unfold appendFile at 1. rewrite lookup_insert_eq.
    cbn [default from_option id].
    rewrite parse_append_record;
      [| apply encode_one_line | exact Hn2 | apply stringify_bytes_one_line].
    unfold fs1, appendFile. rewrite lookup_insert_eq.
    cbn [default from_option id].
    rewrite parse_append_record;
      [| apply encode_one_line | exact Hn1 | apply stringify_bytes_one_line].
    reflexivity. }
  assert (Hfile : is_Some (appendFile fs1 path
                    (env_record (toBase58 (publicKey kp2)) name2
                       (keypairToSecretKeyJSON kp2)) !! path)).
  { unfold appendFile at 1. rewrite lookup_insert_eq. by eexists. }
  destruct Hfile as [src Hsrc].
  unfold Dotenv.config. rewrite Hsrc. rewrite Hsrc in Hparse.
  cbn [default from_option id] in Hparse.
  split.
  - rewrite (loader_stringified _ _ (secretKey kp1)); [exact Hk1 |].
    rewrite lookup_union_r by exact He1. rewrite Hparse.
    rewrite lookup_insert_ne by congruence. apply lookup_insert_eq.
  - rewrite (loader_stringified _ _ (secretKey kp2)); [exact Hk2 |].
    rewrite lookup_union_r by exact He2. rewrite Hparse.
    apply lookup_insert_eq.
Qed.

End MoreLoading.

Lemma getKeypairFromEnvironment_reads_base58_witness :
  @Keypair.getKeypairFromEnvironment test_platform
    {[ "SECRET_KEY" := Base58.encode (Keypair.secretKey test_keypair) ]}
    "SECRET_KEY"
  = Ok test_keypair.
Proof.
  apply (@getKeypairFromEnvironment_reads_base58 test_platform).
  - vm_compute. reflexivity.
  - apply lookup_singleton_eq.
Defined.

Lemma addKeypairToEnvFile_two_names_witness :
  let (r1, fs1) :=
    Keypair.addKeypairToEnvFile ∅ ∅ test_keypair "ALICE" None in
  let (r2, fs2) :=
    Keypair.addKeypairToEnvFile ∅ fs1 test_keypair2 "BOB" None in
  let env' := Dotenv.config fs2 (Keypair.target_file None) ∅ in
  r1 = Ok tt /\ r2 = Ok tt
  /\ @Keypair.getKeypairFromEnvironment test_platform env' "ALICE"
     = Ok test_keypair
  /\ @Keypair.getKeypairFromEnvironment test_platform env' "BOB"
     = Ok test_keypair2.
Proof.
  apply (@addKeypairToEnvFile_two_names test_platform ∅ ∅ test_keypair
           test_keypair2 "ALICE" "BOB" None).
  - reflexivity.
  - reflexivity.
  - discriminate.
  - apply lookup_empty.
  - apply lookup_empty.
  - vm_compute. reflexivity.
  - vm_compute. reflexivity.
Defined.
